(** * find-files-mcp: the traversal-and-filter engine of [server.js]

    A shallow embedding of [wildcardToRegex] and [findFiles] together with
    the parts of the JavaScript runtime they rely on (string methods, a
    fragment of [RegExp], [Date] comparison), followed by the properties
    of the search engine. *)

From Stdlib Require Import String Ascii List ZArith Lia Bool Arith.
From Stdlib Require Import QArith Qround Qabs DecimalString.
Import ListNotations.

Local Open Scope string_scope.
Local Open Scope list_scope.
Local Open Scope nat_scope.

(** ** JavaScript strings

    Names and patterns are sequences of code units; the embedding keeps the
    code units U+0000..U+00FF (one [ascii] each, read as Latin-1). *)

Module JSString.

(** [s.startsWith(p)] *)
Fixpoint startsWith (s p : string) : bool :=
  match p, s with
  | EmptyString, _ => true
  | String _ _, EmptyString => false
  | String b p', String a s' => (a =? b)%char && startsWith s' p'
  end.

(** [s.includes(p)]: [p] starts at some position of [s]. *)
Fixpoint includes (s p : string) : bool :=
  startsWith s p ||
  match s with
  | EmptyString => false
  | String _ s' => includes s' p
  end.

(** [s.endsWith(p)]: [p] starts at position [s.length - p.length]. *)
Fixpoint endsWith (s p : string) : bool :=
  (String.eqb s p) ||
  match s with
  | EmptyString => false
  | String _ s' => endsWith s' p
  end.

(** One code unit of [toLowerCase]: A-Z and the Latin-1 capitals
    U+00C0..U+00DE (U+00D7, the multiplication sign, apart) move up by 32. *)
Definition lowerChar (c : ascii) : ascii :=
  let n := nat_of_ascii c in
  if ((65 <=? n) && (n <=? 90)) ||
     ((192 <=? n) && (n <=? 222) && negb (n =? 215))
  then ascii_of_nat (n + 32) else c.

(** [s.toLowerCase()] *)
Fixpoint toLowerCase (s : string) : string :=
  match s with
  | EmptyString => EmptyString
  | String c s' => String (lowerChar c) (toLowerCase s')
  end.

(** [s.replace(/c/g, by)] for a one-character pattern [c] and a
    replacement text without [$]. *)
Fixpoint replaceAll (c : ascii) (by_ : string) (s : string) : string :=
  match s with
  | EmptyString => EmptyString
  | String d s' =>
      if (d =? c)%char then String.append by_ (replaceAll c by_ s')
      else String d (replaceAll c by_ s')
  end.

(** Truthiness of a string value: only the empty string is falsy. *)
Definition truthy (s : string) : bool :=
  match s with EmptyString => false | _ => true end.

End JSString.

(** ** A fragment of JavaScript regular expressions

    [new RegExp(src)] without flags.  The fragment covers literal
    characters, [.], identity escapes of syntax characters, the assertions
    [^] and [$], alternation, capturing groups and the quantifiers [*], [+],
    [?] (greedy or lazy).  Character classes, braces, the other escapes and
    the [(?...)] groups are reported as [Unsupported]. *)

Module RegExp.

Inductive regex : Type :=
| Eps
| Chr (c : ascii)
| AnyChar
| Bol
| Eol
| Seq (r1 r2 : regex)
| Alt (r1 r2 : regex)
| Star (r : regex).

(** What may follow a term: an atom takes a quantifier, a quantified atom
    takes only the lazy mark [?], an assertion or a lazily quantified atom
    takes nothing. *)
Inductive kind : Type := Quantifiable | Quantified | Closed.

(** A group being read: the alternatives already closed by [|] and the
    terms of the current alternative, both most recent first. *)
Record frame : Type := mkFrame {
  alts : list regex;
  cur : list (regex * kind)
}.

Definition emptyFrame : frame := mkFrame [] [].

Definition seqOf (items : list (regex * kind)) : regex :=
  fold_right Seq Eps (map fst (rev items)).

Definition altOf (f : frame) : regex :=
  fold_left (fun acc a => Alt a acc) (alts f) (seqOf (cur f)).

Definition pushItem (it : regex * kind) (f : frame) : frame :=
  mkFrame (alts f) (it :: cur f).

Definition closeAlt (f : frame) : frame :=
  mkFrame (seqOf (cur f) :: alts f) [].

Definition applyQuantifier (q : ascii) (r : regex) : regex :=
  if (q =? "*")%char then Star r
  else if (q =? "+")%char then Seq r (Star r)
  else Alt r Eps.

(** A quantifier character after the last term of the frame; [None] is
    the engine's "Nothing to repeat". *)
Definition quantify (q : ascii) (f : frame) : option frame :=
  match cur f with
  | (r, Quantifiable) :: more =>
      Some (mkFrame (alts f) ((applyQuantifier q r, Quantified) :: more))
  | (r, Quantified) :: more =>
      if (q =? "?")%char then Some (mkFrame (alts f) ((r, Closed) :: more))
      else None
  | _ => None
  end.

Definition isQuantifierChar (c : ascii) : bool :=
  (c =? "*")%char || (c =? "+")%char || (c =? "?")%char.

Definition isBracket (c : ascii) : bool :=
  (c =? "[")%char || (c =? "]")%char || (c =? "{")%char || (c =? "}")%char.

(** SyntaxCharacter of the grammar, and [/]. *)
Definition isSyntaxChar (c : ascii) : bool :=
  (c =? "^")%char || (c =? "$")%char || (c =? "\")%char || (c =? ".")%char
  || (c =? "(")%char || (c =? ")")%char || (c =? "|")%char || (c =? "/")%char
  || isQuantifierChar c || isBracket c.

Inductive compiled : Type :=
| Compiled (r : regex)
| SyntaxError
| Unsupported.

Fixpoint parse (s : string) (top : frame) (below : list frame) : compiled :=
  match s with
  | EmptyString =>
      match below with
      | [] => Compiled (altOf top)
      | _ :: _ => SyntaxError
      end
  | String c rest =>
      if (c =? "\")%char then
        match rest with
        | EmptyString => SyntaxError
        | String d rest' =>
            if isSyntaxChar d
            then parse rest' (pushItem (Chr d, Quantifiable) top) below
            else Unsupported
        end
      else if (c =? "(")%char then
        match rest with
        | String d _ =>
            if (d =? "?")%char then Unsupported
            else parse rest emptyFrame (top :: below)
        | EmptyString => parse rest emptyFrame (top :: below)
        end
      else if (c =? ")")%char then
        match below with
        | [] => SyntaxError
        | parent :: below' =>
            parse rest (pushItem (altOf top, Quantifiable) parent) below'
        end
      else if (c =? "|")%char then parse rest (closeAlt top) below
      else if (c =? "^")%char then parse rest (pushItem (Bol, Closed) top) below
      else if (c =? "$")%char then parse rest (pushItem (Eol, Closed) top) below
      else if (c =? ".")%char then
        parse rest (pushItem (AnyChar, Quantifiable) top) below
      else if isQuantifierChar c then
        match quantify c top with
        | Some top' => parse rest top' below
        | None => SyntaxError
        end
      else if isBracket c then Unsupported
      else parse rest (pushItem (Chr c, Quantifiable) top) below
  end.

(** [new RegExp(src)] *)
Definition RegExp (src : string) : compiled := parse src emptyFrame [].

(** LineTerminator code units below U+0100: LF and CR. *)
Definition isLineTerminator (c : ascii) : bool :=
  (nat_of_ascii c =? 10) || (nat_of_ascii c =? 13).

(** All inputs left after zero or more rounds of [step]; a round that
    consumes nothing adds no new position. *)
Fixpoint starEnds (step : string -> list string) (fuel : nat) (s : string)
  : list string :=
  s :: match fuel with
       | O => []
       | S f =>
           flat_map (starEnds step f)
             (filter (fun t => String.length t <? String.length s) (step s))
       end.

(** [ends r n s]: the inputs left after each way [r] can match at the
    front of [s], where [n] is the length of the whole subject (so that
    [^] can tell the start). *)
Fixpoint ends (r : regex) (n : nat) (s : string) : list string :=
  match r with
  | Eps => [s]
  | Chr c =>
      match s with
      | String d s' => if (d =? c)%char then [s'] else []
      | EmptyString => []
      end
  | AnyChar =>
      match s with
      | String d s' => if isLineTerminator d then [] else [s']
      | EmptyString => []
      end
  | Bol => if String.length s =? n then [s] else []
  | Eol => match s with EmptyString => [s] | String _ _ => [] end
  | Seq a b => flat_map (ends b n) (ends a n s)
  | Alt a b => ends a n s ++ ends b n s
  | Star a => starEnds (ends a n) (String.length s) s
  end.

Definition matchesAt (r : regex) (n : nat) (s : string) : bool :=
  match ends r n s with [] => false | _ :: _ => true end.

Fixpoint suffixes (s : string) : list string :=
  s :: match s with
       | EmptyString => []
       | String _ s' => suffixes s'
       end.

(** [re.test(s)] for a regular expression without flags: some position of
    [s] starts a match. *)
Definition test (r : regex) (s : string) : bool :=
  existsb (matchesAt r (String.length s)) (suffixes s).

End RegExp.

(** ** [wildcardToRegex] *)

(** The text handed to [new RegExp]: the three replacements in the order of
    the source, between [^] and [$]. *)
Definition regexPattern (pattern : string) : string :=
  JSString.replaceAll "?" "."
    (JSString.replaceAll "*" ".*"
       (JSString.replaceAll "." "\." pattern)).

Definition wildcardToRegex (pattern : string) : RegExp.compiled :=
  RegExp.RegExp (String "^" (String.append (regexPattern pattern) "$")).

(** ** The collaborators of the engine *)

(** A [Date] object: an instant in milliseconds since the epoch, or the
    invalid date (whose time value is NaN). *)
Inductive JSDate : Type :=
| Instant (ms : Z)
| InvalidDate.

(** [a < b] and [a > b] where [a] is a valid date and [b] any [Date]: both
    are converted to numbers, and every comparison with NaN is false. *)
Definition dateLt (a : Z) (b : JSDate) : bool :=
  match b with
  | Instant y => (a <? y)%Z
  | InvalidDate => false
  end.

Definition dateGt (a : Z) (b : JSDate) : bool :=
  match b with
  | Instant y => (a >? y)%Z
  | InvalidDate => false
  end.

Module Stats.
(** What [fs.promises.stat] resolves to, as far as the engine reads it.
    [birthtime] and [mtime] are the time values of the two [Date] objects,
    taken to be valid dates (within the range that [toISOString] renders),
    as [fs] builds them from the timestamps of the file. *)
Record t : Type := mk {
  isDirectory : bool;
  isFile : bool;
  size : Z;
  birthtime : Z;
  mtime : Z
}.
End Stats.

Module MatchRecord.
(** One element of [results]; [created] and [modified] hold the instants
    that the source renders with [toISOString]. *)
Record t : Type := mk {
  path : string;
  size : Z;
  created : Z;
  modified : Z;
  type : string
}.
End MatchRecord.

(** The file system as the search sees it, the [mime-types] table,
    [path.join], and the clock: [now k] is what the [k]-th call of
    [Date.now()] returns.  [None] stands for a rejected promise (or, for
    [mimeLookup], for the result [false]). *)
Record World : Type := mkWorld {
  readdir : string -> option (list string);
  stat : string -> option Stats.t;
  readFile : string -> option string;
  mimeLookup : string -> option string;
  pathJoin : string -> string -> string;
  now : nat -> Z
}.

(** The argument object of [findFiles]; [None] is [undefined].  The
    numbers are whole numbers here, where the schema admits any number. *)
Record Config : Type := mkConfig {
  startDirs : list string;
  filename : option string;
  extension : option string;
  minSize : option Z;
  maxSize : option Z;
  createdAfter : option JSDate;
  createdBefore : option JSDate;
  modifiedAfter : option JSDate;
  modifiedBefore : option JSDate;
  recursive : bool;
  caseSensitive : bool;
  contentSearch : option string;
  fileType : option string;
  maxResults : option Z;
  timeoutMs : option Z
}.

(** Truthiness of an optional string and of an optional number. *)
Definition truthyString (o : option string) : bool :=
  match o with
  | Some s => JSString.truthy s
  | None => false
  end.

Definition truthyNumber (o : option Z) : bool :=
  match o with
  | Some n => negb (n =? 0)%Z
  | None => false
  end.

(** What [findFiles] can throw: [new Error("Search timed out")], and the
    SyntaxError of [new RegExp]. *)
Inductive Error : Type :=
| SearchTimedOut
| RegExpSyntaxError.

(** How a call of [findFiles] ends: the promise resolves with [results], or
    it rejects.  [OutOfFuel] is a traversal longer than the fuel given,
    [NotModelled] a pattern outside the fragment of [RegExp]. *)
Inductive Outcome : Type :=
| Returned (results : list MatchRecord.t)
| Threw (e : Error)
| OutOfFuel
| NotModelled.

(** ** [findFiles] *)

Section Engine.

Variable w : World.
Variable cfg : Config.

(** [filenameRegex]: the compiled pattern, or [None] for [null].  It is
    non-null only when [filename] is a non-empty string. *)
Variable filenameRegex : option RegExp.regex.

Definition maxResultsOrDefault : Z :=
  match maxResults cfg with Some n => n | None => 1000%Z end.

Definition timeoutMsOrDefault : Z :=
  match timeoutMs cfg with Some n => n | None => 30000%Z end.

(** [mime.lookup(filePath) || 'application/octet-stream'] *)
Definition mimeTypeOf (filePath : string) : string :=
  match mimeLookup w filePath with
  | Some label => if JSString.truthy label then label
                  else "application/octet-stream"
  | None => "application/octet-stream"
  end.

(** Each [...Rejects] below is the condition of one [if (...) continue]. *)

Definition testName (fileName : string) : string :=
  if caseSensitive cfg then fileName else JSString.toLowerCase fileName.

Definition testPattern (pattern : string) : string :=
  if caseSensitive cfg then pattern else JSString.toLowerCase pattern.

Definition nameRejects (fileName : string) : bool :=
  match filenameRegex, filename cfg with
  | Some r, Some pattern =>
      negb (RegExp.test r (testName fileName))
      && negb (JSString.includes (testName fileName) (testPattern pattern))
  | _, _ => false
  end.

Definition extensionRejects (fileName : string) : bool :=
  match extension cfg with
  | Some e =>
      JSString.truthy e && negb (JSString.endsWith fileName (String "." e))
  | None => false
  end.

Definition minSizeRejects (size : Z) : bool :=
  match minSize cfg with
  | Some m => negb (m =? 0)%Z && (size <? m)%Z
  | None => false
  end.

Definition maxSizeRejects (size : Z) : bool :=
  match maxSize cfg with
  | Some m => negb (m =? 0)%Z && (size >? m)%Z
  | None => false
  end.

Definition createdAfterRejects (birthtime : Z) : bool :=
  match createdAfter cfg with
  | Some d => dateLt birthtime d
  | None => false
  end.

Definition createdBeforeRejects (birthtime : Z) : bool :=
  match createdBefore cfg with
  | Some d => dateGt birthtime d
  | None => false
  end.

Definition modifiedAfterRejects (mtime : Z) : bool :=
  match modifiedAfter cfg with
  | Some d => dateLt mtime d
  | None => false
  end.

Definition modifiedBeforeRejects (mtime : Z) : bool :=
  match modifiedBefore cfg with
  | Some d => dateGt mtime d
  | None => false
  end.

Definition fileTypeRejects (mimeType : string) : bool :=
  match fileType cfg with
  | Some t => JSString.truthy t && negb (JSString.startsWith mimeType t)
  | None => false
  end.

(** The value of [contentMatch] after the guarded read. *)
Definition contentMatch (filePath mimeType : string) : bool :=
  match contentSearch cfg with
  | Some needle =>
      if JSString.truthy needle && JSString.startsWith mimeType "text/" then
        match readFile w filePath with
        | Some content => JSString.includes content needle
        | None => false
        end
      else true
  | None => true
  end.

Definition contentRejects (filePath mimeType : string) : bool :=
  truthyString (contentSearch cfg) && negb (contentMatch filePath mimeType).

(** The body of [if (stats.isFile())]: [None] when a [continue] is taken,
    otherwise the record pushed onto [results]. *)
Definition fileMatch (fileName filePath : string) (stats : Stats.t)
  : option MatchRecord.t :=
  let mimeType := mimeTypeOf filePath in
  if nameRejects fileName then None
  else if extensionRejects fileName then None
  else if minSizeRejects (Stats.size stats) then None
  else if maxSizeRejects (Stats.size stats) then None
  else if createdAfterRejects (Stats.birthtime stats) then None
  else if createdBeforeRejects (Stats.birthtime stats) then None
  else if modifiedAfterRejects (Stats.mtime stats) then None
  else if modifiedBeforeRejects (Stats.mtime stats) then None
  else if fileTypeRejects mimeType then None
  else if contentRejects filePath mimeType then None
  else Some (MatchRecord.mk filePath (Stats.size stats)
               (Stats.birthtime stats) (Stats.mtime stats) mimeType).

(** Some filter of the chain takes its [continue]. *)
Definition rejected (fileName filePath : string)
    (stats : Stats.t) : bool :=
  nameRejects fileName
  || extensionRejects fileName
  || minSizeRejects (Stats.size stats)
  || maxSizeRejects (Stats.size stats)
  || createdAfterRejects (Stats.birthtime stats)
  || createdBeforeRejects (Stats.birthtime stats)
  || modifiedAfterRejects (Stats.mtime stats)
  || modifiedBeforeRejects (Stats.mtime stats)
  || fileTypeRejects (mimeTypeOf filePath)
  || contentRejects filePath (mimeTypeOf filePath).

(** The [for (const dirent of files)] loop, threading [queue] and
    [results]. *)
Fixpoint forEntries (currentDir : string) (files : list string)
    (queue : list string) (results : list MatchRecord.t)
  : list string * list MatchRecord.t :=
  match files with
  | [] => (queue, results)
  | name :: more =>
      let filePath := pathJoin w currentDir name in
      match stat w filePath with
      | None => forEntries currentDir more queue results
      | Some stats =>
          let queue' :=
            if Stats.isDirectory stats && recursive cfg
            then queue ++ [filePath] else queue in
          let results' :=
            if Stats.isFile stats then
              match fileMatch name filePath stats with
              | Some m => results ++ [m]
              | None => results
              end
            else results in
          forEntries currentDir more queue' results'
      end
  end.

(** The state of the [while] loop; [clockReads] counts the calls of
    [Date.now()] made so far. *)
Record State : Type := mkState {
  queue : list string;
  results : list MatchRecord.t;
  clockReads : nat
}.

(** [startTime] is the first reading of the clock. *)
Definition startTime : Z := now w 0.

(** One evaluation of the loop condition and, if it holds, of the body:
    [inl] is the state at the next evaluation of the condition, [inr] the
    way the function ends. *)
Definition step (st : State) : State + Outcome :=
  match queue st with
  | [] => inr (Returned (results st))
  | currentDir :: rest =>
      if (Z.of_nat (length (results st)) <? maxResultsOrDefault)%Z then
        if (now w (clockReads st) - startTime >? timeoutMsOrDefault)%Z
        then inr (Threw SearchTimedOut)
        else
          match readdir w currentDir with
          | None => inl (mkState rest (results st) (S (clockReads st)))
          | Some files =>
              let '(q, r) := forEntries currentDir files rest (results st) in
              inl (mkState q r (S (clockReads st)))
          end
      else inr (Returned (results st))
  end.

Fixpoint run (fuel : nat) (st : State) : Outcome :=
  match step st with
  | inr o => o
  | inl st' =>
      match fuel with
      | O => OutOfFuel
      | S fuel' => run fuel' st'
      end
  end.

Definition initialState : State := mkState (startDirs cfg) [] 1.

(** What one directory contributes: the subdirectories it enqueues and
    the records it appends, both in listing order. *)
Definition dirOutput (dir : string) : list string * list MatchRecord.t :=
  match readdir w dir with
  | Some files => forEntries dir files [] []
  | None => ([], [])
  end.

Definition subdirsOf (dir : string) : list string := fst (dirOutput dir).
Definition matchesIn (dir : string) : list MatchRecord.t :=
  snd (dirOutput dir).

End Engine.

(** [filename ? wildcardToRegex(filename) : null] *)
Definition compileFilename (cfg : Config) : option RegExp.compiled :=
  match filename cfg with
  | Some f => if JSString.truthy f then Some (wildcardToRegex f) else None
  | None => None
  end.

(** The compiled pattern the loop runs with. *)
Definition filenameRegexOf (cfg : Config) : option RegExp.regex :=
  match compileFilename cfg with
  | Some (RegExp.Compiled r) => Some r
  | _ => None
  end.

(** [findFiles]; [fuel] bounds the number of directories taken from the
    queue. *)
Definition findFiles (fuel : nat) (w : World) (cfg : Config) : Outcome :=
  match compileFilename cfg with
  | Some RegExp.SyntaxError => Threw RegExpSyntaxError
  | Some RegExp.Unsupported => NotModelled
  | Some (RegExp.Compiled r) => run w cfg (Some r) fuel (initialState cfg)
  | None => run w cfg None fuel (initialState cfg)
  end.

(** ** Configurations that differ in one group of fields *)

Definition defaultConfig (dirs : list string) : Config :=
  mkConfig dirs None None None None None None None None true false
           None None None None.

Definition withFilename (cfg : Config) (f : option string) (cs : bool) : Config :=
  mkConfig (startDirs cfg) f (extension cfg) (minSize cfg) (maxSize cfg)
           (createdAfter cfg) (createdBefore cfg) (modifiedAfter cfg)
           (modifiedBefore cfg) (recursive cfg) cs
           (contentSearch cfg) (fileType cfg) (maxResults cfg) (timeoutMs cfg).

Definition withMinSize (cfg : Config) (m : option Z) : Config :=
  mkConfig (startDirs cfg) (filename cfg) (extension cfg) m (maxSize cfg)
           (createdAfter cfg) (createdBefore cfg) (modifiedAfter cfg)
           (modifiedBefore cfg) (recursive cfg) (caseSensitive cfg)
           (contentSearch cfg) (fileType cfg) (maxResults cfg) (timeoutMs cfg).

Definition withMaxSize (cfg : Config) (m : option Z) : Config :=
  mkConfig (startDirs cfg) (filename cfg) (extension cfg) (minSize cfg) m
           (createdAfter cfg) (createdBefore cfg) (modifiedAfter cfg)
           (modifiedBefore cfg) (recursive cfg) (caseSensitive cfg)
           (contentSearch cfg) (fileType cfg) (maxResults cfg) (timeoutMs cfg).


Definition withContentSearch (cfg : Config) (c : option string) : Config :=
  mkConfig (startDirs cfg) (filename cfg) (extension cfg) (minSize cfg)
           (maxSize cfg) (createdAfter cfg) (createdBefore cfg)
           (modifiedAfter cfg) (modifiedBefore cfg) (recursive cfg)
           (caseSensitive cfg) c (fileType cfg) (maxResults cfg)
           (timeoutMs cfg).

Definition withMaxResults (cfg : Config) (m : option Z) : Config :=
  mkConfig (startDirs cfg) (filename cfg) (extension cfg) (minSize cfg)
           (maxSize cfg) (createdAfter cfg) (createdBefore cfg)
           (modifiedAfter cfg) (modifiedBefore cfg) (recursive cfg)
           (caseSensitive cfg) (contentSearch cfg) (fileType cfg) m
           (timeoutMs cfg).

(** ** The matcher and the name filter as the specification words them *)

(** [anyRun k name]: [k] accepts [name] with some run of leading characters
    (possibly none) removed. *)
Fixpoint anyRun (k : string -> bool) (name : string) : bool :=
  k name
  || match name with
     | EmptyString => false
     | String _ name' => anyRun k name'
     end.

(** The wildcard language of the specification: [*] is any run of
    characters, [?] is exactly one character, every other character
    (the dot included) stands for itself, and the whole name must match. *)
Fixpoint specWildcardMatch (pattern name : string) : bool :=
  match pattern with
  | EmptyString =>
      match name with EmptyString => true | String _ _ => false end
  | String c pattern' =>
      if (c =? "*")%char then anyRun (specWildcardMatch pattern') name
      else
        match name with
        | EmptyString => false
        | String d name' =>
            ((c =? "?")%char || (d =? c)%char) && specWildcardMatch pattern' name'
        end
  end.

(** The name filter of the specification: with [caseSensitive = false] both
    the name and the pattern are folded before the pattern is compiled and
    tested; the plain substring is accepted as well. *)
Definition specNameAccepts (cs : bool) (pattern fileName : string) : bool :=
  let name' := if cs then fileName else JSString.toLowerCase fileName in
  let pattern' := if cs then pattern else JSString.toLowerCase pattern in
  specWildcardMatch pattern' name' || JSString.includes name' pattern'.

(** ** Wildcard patterns proper *)

(** A pattern character that the conversion handles: any character but the
    regular-expression metacharacters it leaves unescaped. *)
Definition isWildcardChar (c : ascii) : bool :=
  negb ((c =? "\")%char || (c =? "^")%char || (c =? "$")%char
        || (c =? "(")%char || (c =? ")")%char || (c =? "|")%char
        || (c =? "+")%char || RegExp.isBracket c).

Fixpoint isWildcardPattern (pattern : string) : bool :=
  match pattern with
  | EmptyString => true
  | String c pattern' => isWildcardChar c && isWildcardPattern pattern'
  end.

Fixpoint noLineTerminator (name : string) : bool :=
  match name with
  | EmptyString => true
  | String c name' => negb (RegExp.isLineTerminator c) && noLineTerminator name'
  end.

(** What the three replacements make of one pattern character. *)
Definition translateChar (c : ascii) : string :=
  if (c =? ".")%char then "\."
  else if (c =? "*")%char then ".*"
  else if (c =? "?")%char then "."
  else String c EmptyString.

Fixpoint translate (pattern : string) : string :=
  match pattern with
  | EmptyString => EmptyString
  | String c pattern' => String.append (translateChar c) (translate pattern')
  end.

(** The term the parser builds from the translation of one character. *)
Definition termOf (c : ascii) : RegExp.regex * RegExp.kind :=
  if (c =? "*")%char then (RegExp.Star RegExp.AnyChar, RegExp.Quantified)
  else if (c =? "?")%char then (RegExp.AnyChar, RegExp.Quantifiable)
  else (RegExp.Chr c, RegExp.Quantifiable).

Fixpoint termsOf (pattern : string) : list (RegExp.regex * RegExp.kind) :=
  match pattern with
  | EmptyString => []
  | String c pattern' => termOf c :: termsOf pattern'
  end.

(** The regular expression of a wildcard pattern: [^], one term per
    pattern character, [$]. *)
Definition regexOf (pattern : string) : RegExp.regex :=
  RegExp.Seq RegExp.Bol
    (fold_right RegExp.Seq (RegExp.Seq RegExp.Eol RegExp.Eps)
       (map fst (termsOf pattern))).

(** ** Small file systems for the worked examples *)

Module Fixture.

Definition assoc {A : Type} (table : list (string * A)) (k : string)
  : option A :=
  match find (fun kv => String.eqb (fst kv) k) table with
  | Some kv => Some (snd kv)
  | None => None
  end.

Definition join (dir name : string) : string :=
  String.append dir (String "/" name).

Definition directory : Stats.t := Stats.mk true false 4096 0 0.

Definition plainFile (size birthtime mtime : Z) : Stats.t :=
  Stats.mk false true size birthtime mtime.

Definition world (dirs : list (string * list string))
    (nodes : list (string * Stats.t)) (contents labels : list (string * string))
  : World :=
  mkWorld (assoc dirs) (assoc nodes) (assoc contents) (assoc labels) join
          (fun _ => 0%Z).

(** One directory holding two plain files. *)
Definition twoFiles : World :=
  world [("/d", ["one.txt"; "two.txt"])]
        [("/d", directory);
         ("/d/one.txt", plainFile 10 100 200);
         ("/d/two.txt", plainFile 20 300 400)]
        [("/d/one.txt", "alpha"); ("/d/two.txt", "beta")]
        [("/d/one.txt", "text/plain"); ("/d/two.txt", "text/plain")].

(** A text file and a picture side by side. *)
Definition textAndPicture : World :=
  world [("/d", ["note.txt"; "pic.png"])]
        [("/d", directory);
         ("/d/note.txt", plainFile 10 100 200);
         ("/d/pic.png", plainFile 20 300 400)]
        [("/d/note.txt", "no such word here"); ("/d/pic.png", "PNG")]
        [("/d/note.txt", "text/plain"); ("/d/pic.png", "image/png")].

(** One directory holding the single file [name]. *)
Definition oneFile (name : string) : World :=
  world [("/d", [name])]
        [("/d", directory); (join "/d" name, plainFile 10 100 200)]
        [] [].

(** Two start directories, each with one file and one subdirectory that
    holds one file; the subdirectory is listed first. *)
Definition twoRoots : World :=
  world [("/A", ["sub"; "a.txt"]); ("/A/sub", ["c.txt"]);
         ("/B", ["sub"; "b.txt"]); ("/B/sub", ["d.txt"])]
        [("/A", directory); ("/A/sub", directory);
         ("/B", directory); ("/B/sub", directory);
         ("/A/a.txt", plainFile 1 0 0); ("/A/sub/c.txt", plainFile 3 0 0);
         ("/B/b.txt", plainFile 2 0 0); ("/B/sub/d.txt", plainFile 4 0 0)]
        [] [].

End Fixture.

(** ** [formatFileSize] *)

Definition units : list string := ["B"; "KB"; "MB"; "GB"; "TB"].

(** The [while] loop of [formatFileSize].  [size] is a binary64 number in
    the source; for a whole number of bytes up to 2^53 each division by
    1024 is exact, so [size] is kept as the rational it stands for.
    [turns] bounds the number of turns; the loop leaves by its own
    condition after at most [units.length - 1] of them. *)
Fixpoint scaleLoop (turns : nat) (size : Q) (unitIndex : nat) : Q * nat :=
  if Qle_bool 1024 size && (unitIndex <? length units - 1) then
    match turns with
    | O => (size, unitIndex)
    | S turns' => scaleLoop turns' (size / 1024) (S unitIndex)
    end
  else (size, unitIndex).

(** [n.toString()] for a whole number [n >= 0]. *)
Definition decimal (n : Z) : string :=
  NilZero.string_of_uint (N.to_uint (Z.to_N n)).

Definition digit (d : Z) : ascii := ascii_of_nat (48 + Z.to_nat d).

(** The whole number of hundredths that [x.toFixed(2)] shows: the integer
    [n] with [n / 100] nearest to [|x|], the larger one on a tie. *)
Definition hundredths (x : Q) : Z := Qfloor (Qabs x * 100 + (1 # 2)).

(** [x.toFixed(2)], for [|x| < 10^21]: the sign, the digits of [n] before
    the last two, a point, the last two digits. *)
Definition toFixed2 (x : Q) : string :=
  let n := hundredths x in
  String.append (if Qle_bool 0 x then "" else "-")
    (String.append (decimal (n / 100))
       (String "." (String (digit ((n mod 100) / 10))
                      (String (digit (n mod 10)) EmptyString)))).

Definition formatFileSize (bytes : Z) : string :=
  let '(size, unitIndex) := scaleLoop (length units) (inject_Z bytes) 0 in
  String.append (toFixed2 size)
    (String " " (nth unitIndex units EmptyString)).



(** ** The handler of [advanced_find_files] *)

Module ToolArgs.
(** The arguments as the schema hands them to the handler: the optional
    ones are [None] when left out, the ones with a default are always
    there. *)
Record t : Type := mk {
  directories : option (list string);
  filename : option string;
  extension : option string;
  minSize : option Z;
  maxSize : option Z;
  createdAfter : option string;
  createdBefore : option string;
  modifiedAfter : option string;
  modifiedBefore : option string;
  recursive : bool;
  caseSensitive : bool;
  contentSearch : option string;
  fileType : option string;
  maxResults : Z;
  timeoutMs : Z
}.
End ToolArgs.

(** What the handler takes from the runtime: [process.argv.slice(2)],
    [new Date(text)], [date.toISOString()] for the instants of a record, and
    the message of the SyntaxError that [new RegExp] throws on a given
    source text. *)
Record Runtime : Type := mkRuntime {
  argv : list string;
  parseDate : string -> JSDate;
  toISOString : Z -> string;
  syntaxErrorMessage : string -> string
}.

(** [text ? new Date(text) : undefined] *)
Definition dateOf (rt : Runtime) (text : option string) : option JSDate :=
  match text with
  | Some t => if JSString.truthy t then Some (parseDate rt t) else None
  | None => None
  end.

(** [directories && directories.length > 0 ? directories
     : process.argv.slice(2)] *)
Definition startDirsOf (rt : Runtime) (args : ToolArgs.t) : list string :=
  match ToolArgs.directories args with
  | Some (d :: ds) => d :: ds
  | _ => argv rt
  end.

(** The object passed to [findFiles]. *)
Definition configOf (rt : Runtime) (args : ToolArgs.t) : Config :=
  mkConfig (startDirsOf rt args)
           (ToolArgs.filename args) (ToolArgs.extension args)
           (ToolArgs.minSize args) (ToolArgs.maxSize args)
           (dateOf rt (ToolArgs.createdAfter args))
           (dateOf rt (ToolArgs.createdBefore args))
           (dateOf rt (ToolArgs.modifiedAfter args))
           (dateOf rt (ToolArgs.modifiedBefore args))
           (ToolArgs.recursive args) (ToolArgs.caseSensitive args)
           (ToolArgs.contentSearch args) (ToolArgs.fileType args)
           (Some (ToolArgs.maxResults args)) (Some (ToolArgs.timeoutMs args)).

Definition newline : string := String (ascii_of_nat 10) EmptyString.

(** [array.join(sep)] *)
Fixpoint joinWith (sep : string) (parts : list string) : string :=
  match parts with
  | [] => EmptyString
  | [part] => part
  | part :: more => String.append part (String.append sep (joinWith sep more))
  end.

(** The text of one record. *)
Definition renderFile (rt : Runtime) (file : MatchRecord.t) : string :=
  String.append "Path: " (String.append (MatchRecord.path file)
  (String.append newline (String.append "Size: "
  (String.append (formatFileSize (MatchRecord.size file))
  (String.append newline (String.append "Created: "
  (String.append (toISOString rt (MatchRecord.created file))
  (String.append newline (String.append "Modified: "
  (String.append (toISOString rt (MatchRecord.modified file))
  (String.append newline (String.append "Type: "
  (String.append (MatchRecord.type file) newline))))))))))))).

(** [error.message] *)
Definition errorMessage (rt : Runtime) (args : ToolArgs.t) (e : Error)
  : string :=
  match e with
  | SearchTimedOut => "Search timed out"
  | RegExpSyntaxError =>
      match ToolArgs.filename args with
      | Some f =>
          syntaxErrorMessage rt
            (String "^" (String.append (regexPattern f) "$"))
      | None => EmptyString
      end
  end.

Definition askForDirectory : string :=
  "Please specify at least one directory to search.".

Definition noFilesFound : string :=
  "No files found matching the search criteria.".

(** The text of the response of the handler; [None] when the search itself
    has no outcome in the model ([OutOfFuel], [NotModelled]). *)
Definition handler (fuel : nat) (rt : Runtime) (w : World)
    (args : ToolArgs.t) : option string :=
  match startDirsOf rt args with
  | [] => Some askForDirectory
  | _ :: _ =>
      match findFiles fuel w (configOf rt args) with
      | Returned [] => Some noFilesFound
      | Returned (first :: more) =>
          Some (String.append
                  (decimal (Z.of_nat (length (first :: more))))
                  (String.append " files found:"
                     (String.append newline
                        (String.append newline
                           (joinWith newline
                              (map (renderFile rt) (first :: more)))))))
      | Threw e =>
          Some (String.append "An error occurred during file search: "
                  (errorMessage rt args e))
      | OutOfFuel => None
      | NotModelled => None
      end
  end.

Definition withDateArgs (args : ToolArgs.t) (ca cb ma mb : option string)
  : ToolArgs.t :=
  ToolArgs.mk (ToolArgs.directories args) (ToolArgs.filename args)
    (ToolArgs.extension args) (ToolArgs.minSize args) (ToolArgs.maxSize args)
    ca cb ma mb (ToolArgs.recursive args) (ToolArgs.caseSensitive args)
    (ToolArgs.contentSearch args) (ToolArgs.fileType args)
    (ToolArgs.maxResults args) (ToolArgs.timeoutMs args).

(** A date argument that is absent, empty, or that [new Date] cannot
    read. *)
Definition unreadableDate (rt : Runtime) (text : option string) : Prop :=
  match dateOf rt text with
  | Some d => d = InvalidDate
  | None => True
  end.

Module ToolFixture.

(** A runtime without command-line directories; it reads every text but
    one as the epoch and prints an instant as [@] followed by its number of
    milliseconds. *)
Definition runtime : Runtime :=
  mkRuntime []
    (fun text => if String.eqb text "not a date" then InvalidDate
                 else Instant 0)
    (fun ms => String "@" (decimal ms))
    (fun src => String.append "Invalid regular expression: " src).

Definition args (dirs : option (list string)) : ToolArgs.t :=
  ToolArgs.mk dirs None None None None None None None None true false
              None None 1000 30000.

End ToolFixture.

(** ** Vocabulary for the properties of the traversal *)

Definition withStartDirs (cfg : Config) (dirs : list string) : Config :=
  mkConfig dirs (filename cfg) (extension cfg) (minSize cfg) (maxSize cfg)
           (createdAfter cfg) (createdBefore cfg) (modifiedAfter cfg)
           (modifiedBefore cfg) (recursive cfg) (caseSensitive cfg)
           (contentSearch cfg) (fileType cfg) (maxResults cfg)
           (timeoutMs cfg).

Definition withExtension (cfg : Config) (e : option string) : Config :=
  mkConfig (startDirs cfg) (filename cfg) e (minSize cfg) (maxSize cfg)
           (createdAfter cfg) (createdBefore cfg) (modifiedAfter cfg)
           (modifiedBefore cfg) (recursive cfg) (caseSensitive cfg)
           (contentSearch cfg) (fileType cfg) (maxResults cfg)
           (timeoutMs cfg).

(** The pattern, if there is one, compiles within the fragment: the call
    gets as far as the loop. *)
Definition patternCompiles (cfg : Config) : bool :=
  match compileFilename cfg with
  | Some RegExp.SyntaxError => false
  | Some RegExp.Unsupported => false
  | _ => true
  end.

(** The directories the traversal can come to list: the start directories
    and, when [recursive] holds, the entries of a listed directory that
    [stat] reports as directories. *)
Inductive Reachable (w : World) (cfg : Config) : string -> Prop :=
| ReachStart (dir : string) :
    In dir (startDirs cfg) -> Reachable w cfg dir
| ReachEntry (dir name : string) (files : list string) (stats : Stats.t) :
    Reachable w cfg dir ->
    readdir w dir = Some files ->
    In name files ->
    stat w (pathJoin w dir name) = Some stats ->
    Stats.isDirectory stats = true ->
    recursive cfg = true ->
    Reachable w cfg (pathJoin w dir name).

(** [m] is the record of an entry of a reachable directory that [stat]
    reports as a regular file and that no filter rejects. *)
Definition FromFile (w : World) (cfg : Config) (re : option RegExp.regex)
    (m : MatchRecord.t) : Prop :=
  exists (dir name : string) (files : list string) (stats : Stats.t),
    Reachable w cfg dir
    /\ readdir w dir = Some files
    /\ In name files
    /\ stat w (pathJoin w dir name) = Some stats
    /\ Stats.isFile stats = true
    /\ fileMatch w cfg re name (pathJoin w dir name) stats = Some m.

(** The clock never shows more than the budget. *)
Definition WithinBudget (w : World) (cfg : Config) : Prop :=
  forall k : nat, (now w k - startTime w <= timeoutMsOrDefault cfg)%Z.

(** A wildcard pattern without [*] and [?]. *)
Fixpoint isLiteralPattern (pattern : string) : bool :=
  match pattern with
  | EmptyString => true
  | String c pattern' =>
      isWildcardChar c && negb (c =? "*")%char && negb (c =? "?")%char
      && isLiteralPattern pattern'
  end.

(** * Properties *)

(** ** The filter chain *)

Section FilterChain.

Variable w : World.
Variable filenameRegex : option RegExp.regex.

Lemma fileMatch_rejected (cfg : Config) (fileName filePath : string)
    (stats : Stats.t) :
  fileMatch w cfg filenameRegex fileName filePath stats =
  if rejected w cfg filenameRegex fileName filePath stats then None
  else Some (MatchRecord.mk filePath (Stats.size stats)
               (Stats.birthtime stats) (Stats.mtime stats)
               (mimeTypeOf w filePath)).
Proof.
  unfold fileMatch, rejected.
  repeat match goal with
         | |- context [if ?b then None else _] =>
             lazymatch b with
             | orb _ _ => fail
             | _ => destruct b; simpl; try reflexivity
             end
         end.
Qed.

End FilterChain.

(** ** Size bounds *)

(** A bound of 0 is set and yet not applied: with [maxSize = 0] a file of
    [maxSize + 1 = 1] byte is returned. *)
Lemma one_byte_file_passes_maxSize_zero :
  findFiles 5
    (Fixture.world [("/d", ["tiny.bin"])]
       [("/d", Fixture.directory); ("/d/tiny.bin", Fixture.plainFile 1 0 0)]
       [] [])
    (withMaxSize (defaultConfig ["/d"]) (Some 0%Z))
  = Returned [MatchRecord.mk "/d/tiny.bin" 1 0 0 "application/octet-stream"]
  /\ MatchRecord.size
       (MatchRecord.mk "/d/tiny.bin" 1 0 0 "application/octet-stream")
     = (0 + 1)%Z.
Proof. split; reflexivity. Qed.

Lemma rejected_withMinSize (w : World) (re : option RegExp.regex)
    (cfg : Config) (o : option Z) (fileName filePath : string)
    (stats : Stats.t) :
  rejected w (withMinSize cfg o) re fileName filePath stats
  = minSizeRejects (withMinSize cfg o) (Stats.size stats)
    || rejected w (withMinSize cfg None) re fileName filePath stats.
Proof.
  unfold rejected.
  destruct (minSizeRejects (withMinSize cfg o) (Stats.size stats)).
  - cbn [orb]. now rewrite orb_true_r.
  - reflexivity.
Qed.

Lemma rejected_withMaxSize (w : World) (re : option RegExp.regex)
    (cfg : Config) (o : option Z) (fileName filePath : string)
    (stats : Stats.t) :
  rejected w (withMaxSize cfg o) re fileName filePath stats
  = maxSizeRejects (withMaxSize cfg o) (Stats.size stats)
    || rejected w (withMaxSize cfg None) re fileName filePath stats.
Proof.
  unfold rejected.
  destruct (maxSizeRejects (withMaxSize cfg o) (Stats.size stats)).
  - cbn [orb]. now rewrite orb_true_r.
  - reflexivity.
Qed.

(** C9, as the code has it: the size bounds are inclusive.  A file of
    exactly [minSize] bytes that no other filter rejects is returned, and
    so is a file of exactly [maxSize] bytes; with a bound other than 0, a
    file of [maxSize + 1] bytes is excluded, and so is a file of
    [minSize - 1] bytes.  (A bound of 0 is not applied at all.) *)
Theorem size_bounds_are_inclusive :
  forall (w : World) (re : option RegExp.regex) (cfg : Config)
         (fileName filePath : string) (isDir isFile : bool) (m birth mod_ : Z),
    rejected w (withMinSize cfg None) re fileName filePath
             (Stats.mk isDir isFile m birth mod_) = false ->
    rejected w (withMaxSize cfg None) re fileName filePath
             (Stats.mk isDir isFile m birth mod_) = false ->
    fileMatch w (withMinSize cfg (Some m)) re fileName filePath
              (Stats.mk isDir isFile m birth mod_)
    = Some (MatchRecord.mk filePath m birth mod_ (mimeTypeOf w filePath))
    /\ fileMatch w (withMaxSize cfg (Some m)) re fileName filePath
                 (Stats.mk isDir isFile m birth mod_)
       = Some (MatchRecord.mk filePath m birth mod_ (mimeTypeOf w filePath))
    /\ (m <> 0%Z ->
        fileMatch w (withMaxSize cfg (Some m)) re fileName filePath
                  (Stats.mk isDir isFile (m + 1) birth mod_)
        = None)
    /\ (m <> 0%Z ->
        fileMatch w (withMinSize cfg (Some m)) re fileName filePath
                  (Stats.mk isDir isFile (m - 1) birth mod_)
        = None).
Proof.
  intros w re cfg fileName filePath isDir isFile m birth mod_ Hmin Hmax.
  rewrite !fileMatch_rejected.
  rewrite (rejected_withMinSize w re cfg (Some m)).
  rewrite (rejected_withMaxSize w re cfg (Some m)).
  rewrite Hmin, Hmax.
  unfold minSizeRejects, maxSizeRejects.
  cbn [minSize maxSize withMinSize withMaxSize Stats.size].
  rewrite Z.ltb_irrefl, Z.gtb_ltb, Z.ltb_irrefl, !andb_false_r.
  cbn [orb Stats.birthtime Stats.mtime].
  split; [reflexivity |]. split; [reflexivity |].
  split; intros Hnz; apply Z.eqb_neq in Hnz.
  - rewrite (rejected_withMaxSize w re cfg (Some m)).
    unfold maxSizeRejects. cbn [maxSize withMaxSize Stats.size].
    rewrite Hnz.
    replace (m + 1 >? m)%Z with true; [reflexivity |].
    symmetry. rewrite Z.gtb_ltb. apply Z.ltb_lt. lia.
  - rewrite (rejected_withMinSize w re cfg (Some m)).
    unfold minSizeRejects. cbn [minSize withMinSize Stats.size].
    rewrite Hnz.
    replace (m - 1 <? m)%Z with true; [reflexivity |].
    symmetry. apply Z.ltb_lt. lia.
Qed.

Lemma size_bounds_are_inclusive_witness :
  fileMatch Fixture.twoFiles (withMinSize (defaultConfig ["/d"]) (Some 10%Z))
    None "one.txt" "/d/one.txt" (Stats.mk false true 10 100 200)
  = Some (MatchRecord.mk "/d/one.txt" 10 100 200 "text/plain")
  /\ fileMatch Fixture.twoFiles
       (withMaxSize (defaultConfig ["/d"]) (Some 10%Z))
       None "one.txt" "/d/one.txt" (Stats.mk false true 10 100 200)
     = Some (MatchRecord.mk "/d/one.txt" 10 100 200 "text/plain")
  /\ fileMatch Fixture.twoFiles
       (withMaxSize (defaultConfig ["/d"]) (Some 10%Z))
       None "one.txt" "/d/one.txt" (Stats.mk false true (10 + 1) 100 200)
     = None
  /\ findFiles 5 Fixture.twoFiles
       (withMinSize (withMaxSize (defaultConfig ["/d"]) (Some 10%Z))
          (Some 10%Z))
     = Returned [MatchRecord.mk "/d/one.txt" 10 100 200 "text/plain"].
Proof.
  destruct (size_bounds_are_inclusive Fixture.twoFiles None
              (defaultConfig ["/d"]) "one.txt" "/d/one.txt" false true
              10 100 200 eq_refl eq_refl) as (Hmin & Hmax & Hover & _).
  split; [exact Hmin |]. split; [exact Hmax |].
  split; [apply Hover; discriminate | reflexivity].
Defined.

(** C10: a size bound of 0 is no bound.  With [minSize = 0], and with
    [maxSize = 0], every file gets the verdict it gets when the bound is
    absent, and neither size check rejects any size. *)
Theorem zero_size_bound_is_no_bound :
  forall (w : World) (re : option RegExp.regex) (cfg : Config)
         (fileName filePath : string) (stats : Stats.t),
    fileMatch w (withMinSize cfg (Some 0%Z)) re fileName filePath stats
    = fileMatch w (withMinSize cfg None) re fileName filePath stats
    /\ fileMatch w (withMaxSize cfg (Some 0%Z)) re fileName filePath stats
       = fileMatch w (withMaxSize cfg None) re fileName filePath stats
    /\ minSizeRejects (withMinSize cfg (Some 0%Z)) (Stats.size stats) = false
    /\ maxSizeRejects (withMaxSize cfg (Some 0%Z)) (Stats.size stats) = false.
Proof.
  intros. repeat split; reflexivity.
Qed.

(** ** Date bounds *)



(** ** Content search *)

(** A picture is returned although [contentSearch] is set: its label does
    not start with [text/], so its content is never consulted. *)
Lemma non_text_file_passes_content_search :
  findFiles 5 Fixture.textAndPicture
    (withContentSearch (defaultConfig ["/d"]) (Some "needle"))
  = Returned [MatchRecord.mk "/d/pic.png" 20 300 400 "image/png"]
  /\ JSString.startsWith "image/png" "text/" = false.
Proof. split; reflexivity. Qed.

(** C3, as the code has it: with a non-empty [contentSearch], a file whose
    label starts with [text/] gets the verdict of the other filters when
    its content can be read and contains the text, and is excluded
    otherwise; a file with any other label gets the verdict of the other
    filters, whatever it contains. *)
Theorem content_search_applies_to_text_labels_only :
  forall (w : World) (re : option RegExp.regex) (cfg : Config)
         (fileName filePath : string) (stats : Stats.t) (needle : string),
    JSString.truthy needle = true ->
    fileMatch w (withContentSearch cfg (Some needle)) re fileName filePath stats
    = if JSString.startsWith (mimeTypeOf w filePath) "text/" then
        match readFile w filePath with
        | Some content =>
            if JSString.includes content needle
            then fileMatch w (withContentSearch cfg None) re
                           fileName filePath stats
            else None
        | None => None
        end
      else fileMatch w (withContentSearch cfg None) re fileName filePath stats.
Proof.
  intros w re cfg fileName filePath stats needle Hneedle.
  rewrite !fileMatch_rejected. unfold rejected, contentRejects, contentMatch.
  cbn. rewrite Hneedle. cbn.
  destruct (JSString.startsWith (mimeTypeOf w filePath) "text/").
  - destruct (readFile w filePath) as [content |].
    + destruct (JSString.includes content needle); cbn.
      * reflexivity.
      * rewrite !orb_true_r. reflexivity.
    + cbn. rewrite !orb_true_r. reflexivity.
  - reflexivity.
Qed.

Lemma content_search_applies_to_text_labels_only_witness :
  JSString.truthy "needle" = true
  /\ fileMatch Fixture.textAndPicture
       (withContentSearch (defaultConfig ["/d"]) (Some "needle")) None
       "note.txt" "/d/note.txt" (Fixture.plainFile 10 100 200)
     = None.
Proof.
  split; [reflexivity |].
  rewrite (content_search_applies_to_text_labels_only Fixture.textAndPicture
             None (defaultConfig ["/d"]) "note.txt" "/d/note.txt"
             (Fixture.plainFile 10 100 200) "needle");
    reflexivity.
Defined.

(** ** The name filter *)

(** C6: the name filter is a union, but of the substring test with the
    regular expression as compiled, not with the wildcard match.  The
    anchored match alone accepts [notes.txt] for [*.txt], and the substring
    alone accepts [mytest.log] for [test].  For the pattern [*(1).txt],
    though, the parentheses reach the regular expression as a group: the
    file [file(1).txt], which the wildcard pattern matches as a whole, is
    not accepted. *)
Theorem name_filter_misses_a_wildcard_match :
  findFiles 5 (Fixture.oneFile "notes.txt")
    (withFilename (defaultConfig ["/d"]) (Some "*.txt") true)
  = Returned [MatchRecord.mk "/d/notes.txt" 10 100 200
                "application/octet-stream"]
  /\ JSString.includes "notes.txt" "*.txt" = false
  /\ findFiles 5 (Fixture.oneFile "mytest.log")
       (withFilename (defaultConfig ["/d"]) (Some "test") false)
     = Returned [MatchRecord.mk "/d/mytest.log" 10 100 200
                   "application/octet-stream"]
  /\ specWildcardMatch "test" "mytest.log" = false
  /\ findFiles 5 (Fixture.oneFile "file(1).txt")
       (withFilename (defaultConfig ["/d"]) (Some "*(1).txt") true)
     = Returned []
  /\ specWildcardMatch "*(1).txt" "file(1).txt" = true
  /\ specNameAccepts true "*(1).txt" "file(1).txt" = true.
Proof. repeat split; reflexivity. Qed.

(** C4: with [caseSensitive = false] the pattern is folded for the
    substring test only; the regular expression is compiled from the
    pattern as given.  The pattern [*.TXT] therefore misses the file
    [A.TXT], which the case-sensitive search finds and which matching after
    folding both sides accepts.  [REPORT] still finds [report.pdf], through
    the substring test. *)
Theorem case_insensitive_wildcard_keeps_pattern_case :
  findFiles 5 (Fixture.oneFile "A.TXT")
    (withFilename (defaultConfig ["/d"]) (Some "*.TXT") false)
  = Returned []
  /\ specNameAccepts false "*.TXT" "A.TXT" = true
  /\ findFiles 5 (Fixture.oneFile "A.TXT")
       (withFilename (defaultConfig ["/d"]) (Some "*.TXT") true)
     = Returned [MatchRecord.mk "/d/A.TXT" 10 100 200
                   "application/octet-stream"]
  /\ findFiles 5 (Fixture.oneFile "report.pdf")
       (withFilename (defaultConfig ["/d"]) (Some "REPORT") false)
     = Returned [MatchRecord.mk "/d/report.pdf" 10 100 200
                   "application/octet-stream"].
Proof. repeat split; reflexivity. Qed.

(** ** The wildcard matcher *)

(** *** The conversion, character by character *)

Lemma append_assoc (a b c : string) :
  String.append (String.append a b) c = String.append a (String.append b c).
Proof. induction a as [| x a IH]; simpl; [reflexivity | now rewrite IH]. Qed.

(** The three passes amount to one pass that translates each character on
    its own: no replacement text contains a character that a later pass
    looks for. *)
Lemma regexPattern_translate (pattern : string) :
  regexPattern pattern = translate pattern.
Proof.
  unfold regexPattern.
  induction pattern as [| c pattern IH]; [reflexivity |].
  simpl. unfold translateChar.
  destruct (Ascii.eqb_spec c ".") as [-> | Hdot].
  - simpl. now rewrite IH.
  - simpl. destruct (Ascii.eqb_spec c "*") as [-> | Hstar].
    + simpl. now rewrite IH.
    + simpl. destruct (Ascii.eqb_spec c "?") as [-> | Hq];
        simpl; now rewrite IH.
Qed.

(** *** Parsing the translation *)

Lemma parse_translateChar (c : ascii) (rest : string) (top : RegExp.frame)
    (below : list RegExp.frame) :
  isWildcardChar c = true ->
  RegExp.parse (String.append (translateChar c) rest) top below
  = RegExp.parse rest (RegExp.pushItem (termOf c) top) below.
Proof.
  intros Hc. unfold translateChar, termOf.
  destruct (Ascii.eqb_spec c ".") as [-> | Hdot]; [reflexivity |].
  destruct (Ascii.eqb_spec c "*") as [-> | Hstar]; [reflexivity |].
  destruct (Ascii.eqb_spec c "?") as [-> | Hq]; [reflexivity |].
  unfold isWildcardChar in Hc. apply negb_true_iff in Hc.
  repeat (apply orb_false_iff in Hc; destruct Hc as [Hc ?]).
  simpl. unfold RegExp.isQuantifierChar.
  repeat match goal with
         | H : (c =? _)%char = false |- _ => rewrite H; clear H
         | H : RegExp.isBracket c = false |- _ => rewrite H; clear H
         end.
  apply Ascii.eqb_neq in Hdot, Hstar, Hq.
  now rewrite Hdot, Hstar, Hq.
Qed.

Lemma parse_translate (pattern : string) :
  forall (rest : string) (top : RegExp.frame) (below : list RegExp.frame),
    isWildcardPattern pattern = true ->
    RegExp.parse (String.append (translate pattern) rest) top below
    = RegExp.parse rest
        (RegExp.mkFrame (RegExp.alts top)
           (rev (termsOf pattern) ++ RegExp.cur top))
        below.
Proof.
  induction pattern as [| c pattern IH]; intros rest top below Hp.
  - now destruct top.
  - simpl in Hp. apply andb_true_iff in Hp as [Hc Hp].
    simpl. rewrite append_assoc, parse_translateChar by assumption.
    rewrite IH by assumption. simpl. now rewrite <- app_assoc.
Qed.

(** A wildcard pattern always compiles, to [regexOf]. *)
Lemma wildcardToRegex_compiles (pattern : string) :
  isWildcardPattern pattern = true ->
  wildcardToRegex pattern = RegExp.Compiled (regexOf pattern).
Proof.
  intros Hp. unfold wildcardToRegex, RegExp.RegExp.
  rewrite regexPattern_translate.
  change (RegExp.parse (String "^" (String.append (translate pattern) "$"))
            RegExp.emptyFrame [])
    with (RegExp.parse (String.append (translate pattern) "$")
            (RegExp.pushItem (RegExp.Bol, RegExp.Closed) RegExp.emptyFrame) []).
  rewrite parse_translate by assumption.
  simpl. unfold RegExp.altOf, RegExp.seqOf, regexOf. simpl.
  rewrite rev_app_distr, rev_involutive. simpl.
  now rewrite map_app, fold_right_app.
Qed.

(** *** Matching with the compiled pattern *)

Lemma existsb_nonempty_flat_map {A B : Type} (f : A -> list B) (l : list A) :
  match flat_map f l with [] => false | _ :: _ => true end
  = existsb (fun x => match f x with [] => false | _ :: _ => true end) l.
Proof.
  induction l as [| x l IH]; simpl; [reflexivity |].
  destruct (f x); simpl; [exact IH | reflexivity].
Qed.

Lemma matchesAt_Seq (a b : RegExp.regex) (n : nat) (s : string) :
  RegExp.matchesAt (RegExp.Seq a b) n s
  = existsb (RegExp.matchesAt b n) (RegExp.ends a n s).
Proof. unfold RegExp.matchesAt. simpl. apply existsb_nonempty_flat_map. Qed.

Lemma suffixes_length (s t : string) :
  In t (RegExp.suffixes s) -> String.length t <= String.length s.
Proof.
  induction s as [| c s IH]; simpl.
  - intros [<- | []]. reflexivity.
  - intros [<- | H]; [reflexivity |]. apply IH in H. lia.
Qed.

Lemma existsb_all_false {A : Type} (f : A -> bool) (l : list A) :
  (forall x, In x l -> f x = false) -> existsb f l = false.
Proof.
  induction l as [| x l IH]; simpl; intros H; [reflexivity |].
  rewrite (H x) by now left. apply IH. intros y Hy. apply H. now right.
Qed.

(** With [^] in front, only the start of the subject can begin a match. *)
Lemma test_anchored (r : RegExp.regex) (s : string) :
  RegExp.test (RegExp.Seq RegExp.Bol r) s
  = RegExp.matchesAt r (String.length s) s.
Proof.
  unfold RegExp.test. remember (String.length s) as n eqn:Hn.
  assert (Hhead : RegExp.matchesAt (RegExp.Seq RegExp.Bol r) n s
                  = RegExp.matchesAt r n s).
  { rewrite matchesAt_Seq. cbn [RegExp.ends]. rewrite <- Hn, Nat.eqb_refl.
    cbn [existsb]. apply orb_false_r. }
  assert (Htail : forall t, String.length t < n ->
                    RegExp.matchesAt (RegExp.Seq RegExp.Bol r) n t = false).
  { intros t Ht. rewrite matchesAt_Seq. cbn [RegExp.ends].
    destruct (Nat.eqb_spec (String.length t) n); [lia | reflexivity]. }
  destruct s as [| c s]; cbn [RegExp.suffixes existsb]; rewrite Hhead.
  - apply orb_false_r.
  - rewrite existsb_all_false; [apply orb_false_r |].
    intros t Ht. apply suffixes_length in Ht. apply Htail.
    simpl in Hn. lia.
Qed.

(** [.*] leaves every suffix of a subject without line terminators. *)
Lemma star_any_char (n : nat) (k : string -> bool) (s : string) :
  noLineTerminator s = true ->
  existsb k (RegExp.ends (RegExp.Star RegExp.AnyChar) n s) = anyRun k s.
Proof.
  simpl. induction s as [| d s IH]; intros Hs; [reflexivity |].
  simpl in Hs. apply andb_true_iff in Hs as [Hd Hs].
  apply negb_true_iff in Hd.
  simpl. rewrite Hd. simpl.
  rewrite (proj2 (Nat.ltb_lt (String.length s) (S (String.length s))))
    by lia.
  simpl. rewrite app_nil_r. now rewrite IH.
Qed.

Lemma anyRun_ext (k1 k2 : string -> bool) (s : string) :
  (forall t, noLineTerminator t = true -> k1 t = k2 t) ->
  noLineTerminator s = true ->
  anyRun k1 s = anyRun k2 s.
Proof.
  intros Hk. induction s as [| d s IH]; intros Hs; simpl.
  - now rewrite Hk.
  - rewrite Hk by assumption.
    simpl in Hs. apply andb_true_iff in Hs as [_ Hs]. now rewrite IH.
Qed.

Lemma terms_match (pattern : string) :
  forall (n : nat) (s : string),
    isWildcardPattern pattern = true ->
    noLineTerminator s = true ->
    RegExp.matchesAt
      (fold_right RegExp.Seq (RegExp.Seq RegExp.Eol RegExp.Eps)
         (map fst (termsOf pattern))) n s
    = specWildcardMatch pattern s.
Proof.
  induction pattern as [| c pattern IH]; intros n s Hp Hs.
  - now destruct s.
  - simpl in Hp. apply andb_true_iff in Hp as [_ Hp].
    simpl termsOf. simpl map. simpl fold_right.
    rewrite matchesAt_Seq. simpl specWildcardMatch. unfold termOf.
    destruct (c =? "*")%char eqn:Hstar.
    + simpl fst. rewrite star_any_char by assumption.
      apply anyRun_ext; [| assumption].
      intros t Ht. now apply IH.
    + destruct (c =? "?")%char eqn:Hq; simpl fst.
      * destruct s as [| d s]; [reflexivity |].
        simpl in Hs. apply andb_true_iff in Hs as [Hd Hs].
        apply negb_true_iff in Hd.
        simpl. rewrite Hd. simpl. rewrite orb_false_r. now apply IH.
      * destruct s as [| d s]; [reflexivity |].
        simpl in Hs. apply andb_true_iff in Hs as [_ Hs].
        simpl. destruct (d =? c)%char; simpl; [| reflexivity].
        rewrite orb_false_r. now apply IH.
Qed.

(** On the patterns of the wildcard language ([*], [?] and characters that
    are not regular-expression metacharacters) and on names without line
    terminators, the compiled pattern decides exactly the wildcard match of
    the specification: the dot is literal, [*] is any run, [?] is one
    character, and the whole name must match. *)
Lemma wildcard_matches_plain_patterns (pattern name : string) :
  isWildcardPattern pattern = true ->
  noLineTerminator name = true ->
  wildcardToRegex pattern = RegExp.Compiled (regexOf pattern)
  /\ RegExp.test (regexOf pattern) name = specWildcardMatch pattern name.
Proof.
  intros Hp Hn. split; [now apply wildcardToRegex_compiles |].
  unfold regexOf. rewrite test_anchored. now apply terms_match.
Qed.

(** Folding a name neither adds nor removes a line terminator. *)
Lemma lowerChar_lineTerminator (c : ascii) :
  RegExp.isLineTerminator (JSString.lowerChar c) = RegExp.isLineTerminator c.
Proof.
  destruct c as [[] [] [] [] [] [] [] []]; reflexivity.
Qed.

Lemma noLineTerminator_toLowerCase (name : string) :
  noLineTerminator (JSString.toLowerCase name) = noLineTerminator name.
Proof.
  induction name as [| c name IH]; simpl; [reflexivity |].
  now rewrite lowerChar_lineTerminator, IH.
Qed.

(** Where folding leaves the pattern as it is (a case-sensitive search, or
    a pattern without capitals), the name filter of the code is the name
    filter of the specification, on wildcard patterns and names without
    line terminators. *)
Lemma name_filter_agrees_when_pattern_is_folded (w : World) (cfg : Config)
    (pattern fileName filePath : string) (stats : Stats.t) :
  filename cfg = Some pattern ->
  JSString.truthy pattern = true ->
  isWildcardPattern pattern = true ->
  noLineTerminator fileName = true ->
  testPattern cfg pattern = pattern ->
  fileMatch w cfg (filenameRegexOf cfg) fileName filePath stats
  = if specNameAccepts (caseSensitive cfg) pattern fileName
    then fileMatch w cfg None fileName filePath stats
    else None.
Proof.
  intros Hf Ht Hp Hn Hfold.
  assert (Hre : filenameRegexOf cfg = Some (regexOf pattern)).
  { unfold filenameRegexOf, compileFilename.
    now rewrite Hf, Ht, wildcardToRegex_compiles. }
  assert (Hn' : noLineTerminator (testName cfg fileName) = true).
  { unfold testName. destruct (caseSensitive cfg); [assumption |].
    now rewrite noLineTerminator_toLowerCase. }
  rewrite Hre, !fileMatch_rejected. unfold rejected, nameRejects.
  rewrite Hf, Hfold.
  destruct (wildcard_matches_plain_patterns pattern (testName cfg fileName)
              Hp Hn') as [_ ->].
  unfold specNameAccepts. fold (testName cfg fileName).
  fold (testPattern cfg pattern). rewrite Hfold.
  destruct (specWildcardMatch pattern (testName cfg fileName)); cbn;
    [reflexivity |].
  destruct (JSString.includes (testName cfg fileName) pattern); reflexivity.
Qed.

(** The examples of the specification. *)
Example wildcard_examples :
  exists txt file1 : RegExp.regex,
    wildcardToRegex "*.txt" = RegExp.Compiled txt
    /\ wildcardToRegex "file?" = RegExp.Compiled file1
    /\ RegExp.test txt "a.txt" = true
    /\ RegExp.test txt "b.c.txt" = true
    /\ RegExp.test txt "a.txtx" = false
    /\ RegExp.test file1 "file1" = true
    /\ RegExp.test file1 "file12" = false
    /\ RegExp.test file1 "file" = false.
Proof. do 2 eexists. repeat split; reflexivity. Qed.

(** The [.] that stands for [?] does not match a line terminator. *)
Example question_mark_misses_line_feed :
  wildcardToRegex "?" = RegExp.Compiled (regexOf "?")
  /\ RegExp.test (regexOf "?") (String (ascii_of_nat 10) EmptyString) = false
  /\ specWildcardMatch "?" (String (ascii_of_nat 10) EmptyString) = true.
Proof. repeat split; reflexivity. Qed.

(** C5: only the dot is escaped, so a [|] in the pattern reaches the
    regular expression as an alternation: [a|b] compiles to [^a|b$], which
    accepts the name [axyz] without matching the whole of it, where the
    wildcard language accepts only the name [a|b] itself. *)
Theorem unescaped_alternation_is_not_anchored :
  wildcardToRegex "a|b"
  = RegExp.Compiled
      (RegExp.Alt
         (RegExp.Seq RegExp.Bol (RegExp.Seq (RegExp.Chr "a") RegExp.Eps))
         (RegExp.Seq (RegExp.Chr "b") (RegExp.Seq RegExp.Eol RegExp.Eps)))
  /\ RegExp.test
       (RegExp.Alt
          (RegExp.Seq RegExp.Bol (RegExp.Seq (RegExp.Chr "a") RegExp.Eps))
          (RegExp.Seq (RegExp.Chr "b") (RegExp.Seq RegExp.Eol RegExp.Eps)))
       "axyz" = true
  /\ specWildcardMatch "a|b" "axyz" = false
  /\ specWildcardMatch "a|b" "a|b" = true.
Proof. repeat split; reflexivity. Qed.

(** ** Errors *)

(** C7: a pattern with an unclosed parenthesis makes [new RegExp] throw, and
    [findFiles] ends with that SyntaxError before the traversal starts,
    whatever the file system and the rest of the configuration. *)
Theorem unbalanced_pattern_throws_syntax_error :
  forall (fuel : nat) (w : World) (cfg : Config) (cs : bool),
    findFiles fuel w (withFilename cfg (Some "(") cs) = Threw RegExpSyntaxError.
Proof. intros. reflexivity. Qed.

(** ** The traversal loop *)

Section Traversal.

Variable w : World.
Variable cfg : Config.
Variable re : option RegExp.regex.

Lemma forEntries_appends (dir : string) (files : list string) :
  forall (q : list string) (r : list MatchRecord.t),
    forEntries w cfg re dir files q r
    = (q ++ fst (forEntries w cfg re dir files [] []),
       r ++ snd (forEntries w cfg re dir files [] [])).
Proof.
  induction files as [| name more IH]; intros q r; simpl.
  - now rewrite !app_nil_r.
  - destruct (stat w (pathJoin w dir name)) as [stats |]; [| apply IH].
    rewrite IH.
    rewrite (IH (if Stats.isDirectory stats && recursive cfg
                 then [] ++ [pathJoin w dir name] else [])).
    simpl.
    destruct (Stats.isDirectory stats && recursive cfg);
      destruct (Stats.isFile stats);
      try destruct (fileMatch w cfg re name (pathJoin w dir name) stats);
      simpl; rewrite <- ?app_assoc; reflexivity.
Qed.

(** The queue is first-in first-out and [results] is append-only: a turn
    of the loop removes the head of the queue and appends what that
    directory contributes at the two tails. *)
Lemma step_fifo (st st' : State) :
  step w cfg re st = inl st' ->
  exists (dir : string) (rest : list string),
    queue st = dir :: rest
    /\ queue st' = rest ++ subdirsOf w cfg re dir
    /\ results st' = results st ++ matchesIn w cfg re dir
    /\ clockReads st' = S (clockReads st).
Proof.
  unfold step, subdirsOf, matchesIn, dirOutput.
  destruct (queue st) as [| dir rest]; [discriminate |].
  destruct (Z.of_nat (length (results st)) <? maxResultsOrDefault cfg)%Z;
    [| discriminate].
  destruct (now w (clockReads st) - startTime w >? timeoutMsOrDefault cfg)%Z;
    [discriminate |].
  intros H. exists dir, rest.
  destruct (readdir w dir) as [files |].
  - rewrite forEntries_appends in H. injection H as <-. now simpl.
  - injection H as <-. simpl. now rewrite !app_nil_r.
Qed.

(** The loop itself throws nothing but the timeout. *)
Lemma step_only_times_out (st : State) (e : Error) :
  step w cfg re st = inr (Threw e) -> e = SearchTimedOut.
Proof.
  unfold step.
  destruct (queue st); [discriminate |].
  destruct (Z.of_nat (length (results st)) <? maxResultsOrDefault cfg)%Z;
    [| discriminate].
  destruct (now w (clockReads st) - startTime w >? timeoutMsOrDefault cfg)%Z.
  - now intros [= <-].
  - destruct (readdir w _); [| discriminate].
    now destruct (forEntries _ _ _ _ _ _ _).
Qed.

Lemma run_only_times_out (fuel : nat) :
  forall (st : State) (e : Error),
    run w cfg re fuel st = Threw e -> e = SearchTimedOut.
Proof.
  induction fuel as [| fuel IH]; intros st e; simpl;
    destruct (step w cfg re st) as [st' | o] eqn:Hstep;
    try discriminate; eauto.
  - intros ->. eapply step_only_times_out; eauto.
  - intros ->. eapply step_only_times_out; eauto.
Qed.

(** A directory whose listing fails is dropped and the search goes on
    with the rest of the queue and the same results. *)
Lemma unreadable_directory_is_skipped (dir : string) (rest : list string)
    (rs : list MatchRecord.t) (k : nat) :
  readdir w dir = None ->
  (Z.of_nat (length rs) <? maxResultsOrDefault cfg)%Z = true ->
  (now w k - startTime w >? timeoutMsOrDefault cfg)%Z = false ->
  step w cfg re (mkState (dir :: rest) rs k) = inl (mkState rest rs (S k)).
Proof.
  intros Hdir Hcap Htime. unfold step. simpl.
  now rewrite Hcap, Htime, Hdir.
Qed.

(** An entry whose [stat] fails leaves the queue and the results as
    they are. *)
Lemma unreadable_entry_is_skipped (dir name : string) (more : list string)
    (q : list string) (rs : list MatchRecord.t) :
  stat w (pathJoin w dir name) = None ->
  forEntries w cfg re dir (name :: more) q rs
  = forEntries w cfg re dir more q rs.
Proof. intros H. simpl. now rewrite H. Qed.

(** When the loop ends normally it returns the accumulator as it is. *)
Lemma step_returns_results (st : State) (rs : list MatchRecord.t) :
  step w cfg re st = inr (Returned rs) -> rs = results st.
Proof.
  unfold step.
  destruct (queue st); [now intros [= <-] |].
  destruct (Z.of_nat (length (results st)) <? maxResultsOrDefault cfg)%Z;
    [| now intros [= <-]].
  destruct (now w (clockReads st) - startTime w >? timeoutMsOrDefault cfg)%Z;
    [discriminate |].
  destruct (readdir w _); [| discriminate].
  now destruct (forEntries _ _ _ _ _ _ _).
Qed.

(** The cap is looked at once per directory, before it is listed. *)
Lemma cap_is_checked_per_directory (st st' : State) :
  step w cfg re st = inl st' ->
  (Z.of_nat (length (results st)) < maxResultsOrDefault cfg)%Z.
Proof.
  unfold step.
  destruct (queue st); [discriminate |].
  destruct (Z.of_nat (length (results st)) <? maxResultsOrDefault cfg)%Z
    eqn:Hcap; [| discriminate].
  intros _. now apply Z.ltb_lt.
Qed.

(** What is returned extends what had been accumulated. *)
Lemma run_results_extend (fuel : nat) :
  forall (st : State) (rs : list MatchRecord.t),
    run w cfg re fuel st = Returned rs ->
    exists more, rs = results st ++ more.
Proof.
  induction fuel as [| fuel IH]; intros st rs; simpl;
    destruct (step w cfg re st) as [st' | o] eqn:Hstep; try discriminate.
  - intros ->. apply step_returns_results in Hstep as ->.
    exists []. now rewrite app_nil_r.
  - intros H. apply IH in H as [more ->].
    apply step_fifo in Hstep as (dir & rest & _ & _ & -> & _).
    exists (matchesIn w cfg re dir ++ more). now rewrite app_assoc.
  - intros ->. apply step_returns_results in Hstep as ->.
    exists []. now rewrite app_nil_r.
Qed.


(** The start directories are taken from the queue in their order, and
    nothing else is taken before the last of them. *)
Lemma start_directories_first (fuel : nat) :
  forall (done todo : list string) (st : State) (rs : list MatchRecord.t),
    startDirs cfg = done ++ todo ->
    queue st = todo ++ flat_map (subdirsOf w cfg re) done ->
    results st = flat_map (matchesIn w cfg re) done ->
    run w cfg re fuel st = Returned rs ->
    exists (done' todo' : list string) (rest : list MatchRecord.t),
      startDirs cfg = done' ++ todo'
      /\ rs = flat_map (matchesIn w cfg re) done' ++ rest
      /\ (rest <> [] -> todo' = []).
Proof.
  induction fuel as [| fuel IH]; intros done todo st rs Hdirs Hq Hr Hrun.
  - simpl in Hrun.
    destruct (step w cfg re st) as [st' | o] eqn:Hstep; [discriminate |].
    subst o. apply step_returns_results in Hstep as ->.
    exists done, todo, []. rewrite app_nil_r. now repeat split.
  - destruct todo as [| dir todo].
    + apply run_results_extend in Hrun as [more ->].
      exists done, [], more. rewrite Hr. now repeat split.
    + simpl in Hrun.
      destruct (step w cfg re st) as [st' | o] eqn:Hstep.
      * apply step_fifo in Hstep as (dir' & rest & Hq' & Hq'' & Hr' & _).
        rewrite Hq in Hq'. simpl in Hq'. injection Hq' as <- <-.
        apply (IH (done ++ [dir]) todo st' rs); trivial.
        -- now rewrite <- app_assoc.
        -- rewrite Hq'', flat_map_app. simpl.
           now rewrite app_nil_r, app_assoc.
        -- rewrite Hr', Hr, flat_map_app. simpl. now rewrite app_nil_r.
      * subst o. apply step_returns_results in Hstep as ->.
        exists done, (dir :: todo), []. rewrite app_nil_r.
        now repeat split.
Qed.

End Traversal.

Lemma findFiles_returned (fuel : nat) (w : World) (cfg : Config)
    (rs : list MatchRecord.t) :
  findFiles fuel w cfg = Returned rs ->
  run w cfg (filenameRegexOf cfg) fuel (initialState cfg) = Returned rs.
Proof.
  unfold findFiles, filenameRegexOf.
  destruct (compileFilename cfg) as [[r | |] |]; trivial; discriminate.
Qed.

(** Whatever [findFiles] throws is the timeout, unless the pattern did not
    compile. *)
Lemma findFiles_throws (fuel : nat) (w : World) (cfg : Config) (e : Error) :
  findFiles fuel w cfg = Threw e ->
  e = SearchTimedOut
  \/ (e = RegExpSyntaxError
      /\ compileFilename cfg = Some RegExp.SyntaxError).
Proof.
  unfold findFiles.
  destruct (compileFilename cfg) as [[r | |] |]; intros H.
  - left. eapply run_only_times_out; eauto.
  - right. now injection H as <-.
  - discriminate.
  - left. eapply run_only_times_out; eauto.
Qed.

(** A search over an empty directory succeeds with no records; a search
    whose clock has run past the budget fails, and the failure holds no
    records. *)
Example empty_result_and_timeout_differ :
  findFiles 5 (Fixture.world [("/d", [])] [("/d", Fixture.directory)] [] [])
    (defaultConfig ["/d"]) = Returned []
  /\ findFiles 5
       (mkWorld (fun _ => Some []) (fun _ => None) (fun _ => None)
                (fun _ => None) Fixture.join
                (fun k => (30001 * Z.of_nat k)%Z))
       (defaultConfig ["/d"]) = Threw SearchTimedOut.
Proof. split; reflexivity. Qed.

(** C8: the traversal is breadth-first.  When [findFiles] returns, its
    result begins with the matches found directly in the start directories,
    in the order of [startDirs]; a record from anywhere else (a discovered
    subdirectory) appears only after every start directory has been
    processed. *)
Theorem start_directories_before_subdirectories :
  forall (fuel : nat) (w : World) (cfg : Config) (rs : list MatchRecord.t),
    findFiles fuel w cfg = Returned rs ->
    exists (done todo : list string) (rest : list MatchRecord.t),
      startDirs cfg = done ++ todo
      /\ rs = flat_map (matchesIn w cfg (filenameRegexOf cfg)) done ++ rest
      /\ (rest <> [] -> todo = []).
Proof.
  intros fuel w cfg rs H. apply findFiles_returned in H.
  apply (start_directories_first w cfg (filenameRegexOf cfg) fuel
           [] (startDirs cfg) (initialState cfg) rs);
    simpl; rewrite ?app_nil_r; trivial.
Qed.

Lemma start_directories_before_subdirectories_witness :
  findFiles 5 Fixture.twoRoots (defaultConfig ["/A"; "/B"])
  = Returned
      [MatchRecord.mk "/A/a.txt" 1 0 0 "application/octet-stream";
       MatchRecord.mk "/B/b.txt" 2 0 0 "application/octet-stream";
       MatchRecord.mk "/A/sub/c.txt" 3 0 0 "application/octet-stream";
       MatchRecord.mk "/B/sub/d.txt" 4 0 0 "application/octet-stream"]
  /\ flat_map (matchesIn Fixture.twoRoots (defaultConfig ["/A"; "/B"]) None)
       ["/A"; "/B"]
     = [MatchRecord.mk "/A/a.txt" 1 0 0 "application/octet-stream";
        MatchRecord.mk "/B/b.txt" 2 0 0 "application/octet-stream"]
  /\ exists (done todo : list string) (rest : list MatchRecord.t),
       ["/A"; "/B"] = done ++ todo
       /\ [MatchRecord.mk "/A/a.txt" 1 0 0 "application/octet-stream";
           MatchRecord.mk "/B/b.txt" 2 0 0 "application/octet-stream";
           MatchRecord.mk "/A/sub/c.txt" 3 0 0 "application/octet-stream";
           MatchRecord.mk "/B/sub/d.txt" 4 0 0 "application/octet-stream"]
          = flat_map (matchesIn Fixture.twoRoots
                        (defaultConfig ["/A"; "/B"]) None) done ++ rest
       /\ (rest <> [] -> todo = []).
Proof.
  split; [reflexivity |]. split; [reflexivity |].
  apply (start_directories_before_subdirectories 5 Fixture.twoRoots
           (defaultConfig ["/A"; "/B"])).
  reflexivity.
Defined.

(** ** The result cap *)

(** C1: the cap is looked at only between directories.  A directory with
    two matching files searched with [maxResults = 1] yields both. *)
Theorem maxResults_exceeded_within_one_directory :
  findFiles 5 Fixture.twoFiles (withMaxResults (defaultConfig ["/d"]) (Some 1%Z))
  = Returned [MatchRecord.mk "/d/one.txt" 10 100 200 "text/plain";
              MatchRecord.mk "/d/two.txt" 20 300 400 "text/plain"]
  /\ (Z.of_nat
        (length [MatchRecord.mk "/d/one.txt" 10 100 200 "text/plain";
                 MatchRecord.mk "/d/two.txt" 20 300 400 "text/plain"])
      > maxResultsOrDefault (withMaxResults (defaultConfig ["/d"]) (Some 1%Z)))%Z.
Proof. split; reflexivity. Qed.

(** ** What the traversal returns *)

Lemma findFiles_is_run (fuel : nat) (w : World) (cfg : Config) :
  patternCompiles cfg = true ->
  findFiles fuel w cfg
  = run w cfg (filenameRegexOf cfg) fuel (initialState cfg).
Proof.
  unfold patternCompiles, findFiles, filenameRegexOf.
  destruct (compileFilename cfg) as [[r | |] |]; trivial; discriminate.
Qed.

Section Soundness.

Variable w : World.
Variable cfg : Config.
Variable re : option RegExp.regex.

Lemma forEntries_sound (dir : string) (listing : list string) :
  Reachable w cfg dir ->
  readdir w dir = Some listing ->
  forall (files : list string) (q : list string) (rs : list MatchRecord.t),
    incl files listing ->
    Forall (Reachable w cfg) q ->
    Forall (FromFile w cfg re) rs ->
    Forall (Reachable w cfg) (fst (forEntries w cfg re dir files q rs))
    /\ Forall (FromFile w cfg re) (snd (forEntries w cfg re dir files q rs)).
Proof.
  intros Hdir Hlist.
  induction files as [| name more IH]; intros q rs Hincl Hq Hrs; simpl.
  - now split.
  - assert (Hname : In name listing) by (apply Hincl; now left).
    assert (Hmore : incl more listing)
      by (intros x Hx; apply Hincl; now right).
    destruct (stat w (pathJoin w dir name)) as [stats |] eqn:Hstat;
      [| now apply IH].
    apply IH; trivial.
    + destruct (Stats.isDirectory stats) eqn:Hd; simpl; trivial.
      destruct (recursive cfg) eqn:Hr; simpl; trivial.
      apply Forall_app. split; trivial.
      constructor; [| constructor].
      eapply ReachEntry; eauto.
    + destruct (Stats.isFile stats) eqn:Hf; trivial.
      destruct (fileMatch w cfg re name (pathJoin w dir name) stats)
        as [m |] eqn:Hm; trivial.
      apply Forall_app. split; trivial.
      constructor; [| constructor].
      exists dir, name, listing, stats. now repeat split.
Qed.

Lemma step_sound (st st' : State) :
  Forall (Reachable w cfg) (queue st) ->
  Forall (FromFile w cfg re) (results st) ->
  step w cfg re st = inl st' ->
  Forall (Reachable w cfg) (queue st')
  /\ Forall (FromFile w cfg re) (results st').
Proof.
  intros Hq Hrs. unfold step.
  destruct (queue st) as [| dir rest] eqn:Hqueue; [discriminate |].
  destruct (Z.of_nat (length (results st)) <? maxResultsOrDefault cfg)%Z;
    [| discriminate].
  destruct (now w (clockReads st) - startTime w >? timeoutMsOrDefault cfg)%Z;
    [discriminate |].
  inversion Hq as [| ? ? Hdir Hrest]; subst.
  destruct (readdir w dir) as [files |] eqn:Hlist.
  - destruct (forEntries w cfg re dir files rest (results st))
      as [q r] eqn:Hfor.
    intros [= <-]. simpl.
    pose proof (forEntries_sound dir files Hdir Hlist files rest (results st)
                  (incl_refl files) Hrest Hrs) as H.
    now rewrite Hfor in H.
  - intros [= <-]. now split.
Qed.

Lemma run_sound (fuel : nat) :
  forall (st : State) (rs : list MatchRecord.t),
    Forall (Reachable w cfg) (queue st) ->
    Forall (FromFile w cfg re) (results st) ->
    run w cfg re fuel st = Returned rs ->
    Forall (FromFile w cfg re) rs.
Proof.
  induction fuel as [| fuel IH]; intros st rs Hq Hrs; simpl;
    destruct (step w cfg re st) as [st' | o] eqn:Hstep; try discriminate.
  - intros ->. now apply step_returns_results in Hstep as ->.
  - destruct (step_sound st st' Hq Hrs Hstep). now apply IH.
  - intros ->. now apply step_returns_results in Hstep as ->.
Qed.

End Soundness.

(** Every record that [findFiles] returns is the record of a regular file
    (as [stat] reports it) listed in a start directory or, with
    [recursive], in a directory found below one, and that file passed the
    whole filter chain; directories themselves are never returned. *)
Theorem returned_records_come_from_matching_files :
  forall (fuel : nat) (w : World) (cfg : Config) (rs : list MatchRecord.t),
    findFiles fuel w cfg = Returned rs ->
    Forall (FromFile w cfg (filenameRegexOf cfg)) rs.
Proof.
  intros fuel w cfg rs H. apply findFiles_returned in H.
  apply (run_sound w cfg (filenameRegexOf cfg) fuel (initialState cfg) rs);
    trivial.
  apply Forall_forall. intros dir Hdir. now apply ReachStart.
Qed.

Lemma returned_records_come_from_matching_files_witness :
  Forall (FromFile Fixture.twoRoots (defaultConfig ["/A"; "/B"])
            (filenameRegexOf (defaultConfig ["/A"; "/B"])))
    [MatchRecord.mk "/A/a.txt" 1 0 0 "application/octet-stream";
     MatchRecord.mk "/B/b.txt" 2 0 0 "application/octet-stream";
     MatchRecord.mk "/A/sub/c.txt" 3 0 0 "application/octet-stream";
     MatchRecord.mk "/B/sub/d.txt" 4 0 0 "application/octet-stream"].
Proof.
  apply (returned_records_come_from_matching_files 5 Fixture.twoRoots
           (defaultConfig ["/A"; "/B"])).
  reflexivity.
Defined.

Lemma fileMatch_Some (w : World) (cfg : Config) (re : option RegExp.regex)
    (fileName filePath : string) (stats : Stats.t) (m : MatchRecord.t) :
  fileMatch w cfg re fileName filePath stats = Some m ->
  rejected w cfg re fileName filePath stats = false
  /\ m = MatchRecord.mk filePath (Stats.size stats) (Stats.birthtime stats)
           (Stats.mtime stats) (mimeTypeOf w filePath).
Proof.
  rewrite fileMatch_rejected.
  destruct (rejected w cfg re fileName filePath stats); [discriminate |].
  now intros [= <-].
Qed.

(** The pieces of [rejected], one by one. *)
Lemma rejected_false (w : World) (cfg : Config) (re : option RegExp.regex)
    (fileName filePath : string) (stats : Stats.t) :
  rejected w cfg re fileName filePath stats = false ->
  nameRejects cfg re fileName = false
  /\ extensionRejects cfg fileName = false
  /\ minSizeRejects cfg (Stats.size stats) = false
  /\ maxSizeRejects cfg (Stats.size stats) = false
  /\ createdAfterRejects cfg (Stats.birthtime stats) = false
  /\ createdBeforeRejects cfg (Stats.birthtime stats) = false
  /\ modifiedAfterRejects cfg (Stats.mtime stats) = false
  /\ modifiedBeforeRejects cfg (Stats.mtime stats) = false
  /\ fileTypeRejects cfg (mimeTypeOf w filePath) = false
  /\ contentRejects w cfg filePath (mimeTypeOf w filePath) = false.
Proof.
  unfold rejected. intros H.
  repeat (apply orb_false_iff in H; destruct H as [H ?]).
  now repeat split.
Qed.

(** No returned record violates a size or date bound that is in force: its
    size is at least a non-zero [minSize] and at most a non-zero [maxSize],
    and its timestamps are not earlier than the "after" instants nor later
    than the "before" instants. *)
Theorem returned_records_respect_bounds :
  forall (fuel : nat) (w : World) (cfg : Config) (rs : list MatchRecord.t)
         (m : MatchRecord.t),
    findFiles fuel w cfg = Returned rs ->
    In m rs ->
    (forall lo, minSize cfg = Some lo -> lo <> 0%Z ->
                (lo <= MatchRecord.size m)%Z)
    /\ (forall hi, maxSize cfg = Some hi -> hi <> 0%Z ->
                   (MatchRecord.size m <= hi)%Z)
    /\ (forall t, createdAfter cfg = Some (Instant t) ->
                  (t <= MatchRecord.created m)%Z)
    /\ (forall t, createdBefore cfg = Some (Instant t) ->
                  (MatchRecord.created m <= t)%Z)
    /\ (forall t, modifiedAfter cfg = Some (Instant t) ->
                  (t <= MatchRecord.modified m)%Z)
    /\ (forall t, modifiedBefore cfg = Some (Instant t) ->
                  (MatchRecord.modified m <= t)%Z).
Proof.
  intros fuel w cfg rs m Hrun Hin.
  assert (Hall : Forall (FromFile w cfg (filenameRegexOf cfg)) rs).
  { apply findFiles_returned in Hrun.
    apply (run_sound w cfg (filenameRegexOf cfg) fuel (initialState cfg) rs);
      trivial.
    apply Forall_forall. intros dir Hdir. now apply ReachStart. }
  rewrite Forall_forall in Hall.
  destruct (Hall m Hin) as (dir & name & files & stats & _ & _ & _ & _ & _ & Hm).
  apply fileMatch_Some in Hm as [Hrej ->]. simpl.
  apply rejected_false in Hrej
    as (_ & _ & Hmin & Hmax & Hca & Hcb & Hma & Hmb & _).
  unfold minSizeRejects, maxSizeRejects, createdAfterRejects,
    createdBeforeRejects, modifiedAfterRejects, modifiedBeforeRejects in *.
  repeat split.
  - intros lo Hlo Hnz. rewrite Hlo in Hmin.
    apply Z.eqb_neq in Hnz. rewrite Hnz in Hmin. simpl in Hmin.
    apply Z.ltb_ge in Hmin. exact Hmin.
  - intros hi Hhi Hnz. rewrite Hhi in Hmax.
    apply Z.eqb_neq in Hnz. rewrite Hnz in Hmax. simpl in Hmax.
    rewrite Z.gtb_ltb in Hmax. apply Z.ltb_ge in Hmax. exact Hmax.
  - intros t Ht. rewrite Ht in Hca. simpl in Hca.
    apply Z.ltb_ge in Hca. exact Hca.
  - intros t Ht. rewrite Ht in Hcb. simpl in Hcb.
    rewrite Z.gtb_ltb in Hcb. apply Z.ltb_ge in Hcb. exact Hcb.
  - intros t Ht. rewrite Ht in Hma. simpl in Hma.
    apply Z.ltb_ge in Hma. exact Hma.
  - intros t Ht. rewrite Ht in Hmb. simpl in Hmb.
    rewrite Z.gtb_ltb in Hmb. apply Z.ltb_ge in Hmb. exact Hmb.
Qed.

Lemma returned_records_respect_bounds_witness :
  (15 <= MatchRecord.size
           (MatchRecord.mk "/d/two.txt" 20 300 400 "text/plain"))%Z.
Proof.
  apply (proj1 (returned_records_respect_bounds 5 Fixture.twoFiles
                  (withMinSize (defaultConfig ["/d"]) (Some 15%Z))
                  [MatchRecord.mk "/d/two.txt" 20 300 400 "text/plain"]
                  (MatchRecord.mk "/d/two.txt" 20 300 400 "text/plain")
                  eq_refl (or_introl eq_refl))
           15%Z eq_refl).
  discriminate.
Defined.

(** Every returned record carries a label that starts with [fileType]
    when one is asked for, and, when a non-empty [contentSearch] is given
    and the label starts with [text/], the file at its path could be read
    and contains the text. *)
Theorem returned_records_have_type_and_content :
  forall (fuel : nat) (w : World) (cfg : Config) (rs : list MatchRecord.t)
         (m : MatchRecord.t),
    findFiles fuel w cfg = Returned rs ->
    In m rs ->
    (forall t, fileType cfg = Some t ->
               JSString.startsWith (MatchRecord.type m) t = true)
    /\ (forall needle,
          contentSearch cfg = Some needle ->
          JSString.truthy needle = true ->
          JSString.startsWith (MatchRecord.type m) "text/" = true ->
          exists content,
            readFile w (MatchRecord.path m) = Some content
            /\ JSString.includes content needle = true).
Proof.
  intros fuel w cfg rs m Hrun Hin.
  assert (Hall : Forall (FromFile w cfg (filenameRegexOf cfg)) rs).
  { apply findFiles_returned in Hrun.
    apply (run_sound w cfg (filenameRegexOf cfg) fuel (initialState cfg) rs);
      trivial.
    apply Forall_forall. intros dir Hdir. now apply ReachStart. }
  rewrite Forall_forall in Hall.
  destruct (Hall m Hin) as (dir & name & files & stats & _ & _ & _ & _ & _ & Hm).
  apply fileMatch_Some in Hm as [Hrej ->]. simpl.
  apply rejected_false in Hrej as (_ & _ & _ & _ & _ & _ & _ & _ & Hty & Hco).
  split.
  - intros t Ht. unfold fileTypeRejects in Hty. rewrite Ht in Hty.
    destruct t as [| c t]; [now destruct (mimeTypeOf w (pathJoin w dir name)) |].
    simpl JSString.truthy in Hty. simpl andb in Hty.
    now apply negb_false_iff in Hty.
  - intros needle Hneedle Htruthy Htext.
    unfold contentRejects, contentMatch, truthyString in Hco.
    rewrite Hneedle, Htruthy, Htext in Hco. simpl in Hco.
    destruct (readFile w (pathJoin w dir name)) as [content |];
      [| discriminate].
    exists content. split; [reflexivity |].
    now apply negb_false_iff in Hco.
Qed.

Lemma returned_records_have_type_and_content_witness :
  exists content,
    readFile Fixture.twoFiles
      (MatchRecord.path (MatchRecord.mk "/d/one.txt" 10 100 200 "text/plain"))
    = Some content
    /\ JSString.includes content "alp" = true.
Proof.
  apply (proj2 (returned_records_have_type_and_content 5 Fixture.twoFiles
                  (withContentSearch (defaultConfig ["/d"]) (Some "alp"))
                  [MatchRecord.mk "/d/one.txt" 10 100 200 "text/plain"]
                  (MatchRecord.mk "/d/one.txt" 10 100 200 "text/plain")
                  eq_refl (or_introl eq_refl))
           "alp" eq_refl eq_refl eq_refl).
Defined.

(** ** How far the cap can be overshot *)

Section Cap.

Variable w : World.
Variable cfg : Config.
Variable re : option RegExp.regex.

Lemma forEntries_results_length (dir : string) (files : list string) :
  forall (q : list string) (rs : list MatchRecord.t),
    length (snd (forEntries w cfg re dir files q rs))
    <= length rs + length files.
Proof.
  induction files as [| name more IH]; intros q rs; simpl; [lia |].
  destruct (stat w (pathJoin w dir name)) as [stats |].
  - match goal with
    | |- length (snd (forEntries _ _ _ _ _ ?q' ?rs')) <= _ =>
        specialize (IH q' rs');
        assert (length rs' <= S (length rs))
    end.
    { destruct (Stats.isFile stats); [| lia].
      destruct (fileMatch w cfg re name (pathJoin w dir name) stats);
        [| lia].
      rewrite length_app. simpl. lia. }
    lia.
  - specialize (IH q rs). lia.
Qed.

Lemma matchesIn_length (bound : nat) (dir : string) :
  (forall d files, readdir w d = Some files -> length files <= bound) ->
  length (matchesIn w cfg re dir) <= bound.
Proof.
  intros Hbound. unfold matchesIn, dirOutput.
  destruct (readdir w dir) as [files |] eqn:Hlist; simpl; [| lia].
  pose proof (forEntries_results_length dir files [] []) as H.
  simpl in H. specialize (Hbound dir files Hlist). lia.
Qed.

Lemma run_cap_overshoot (bound : nat) (fuel : nat) :
  (forall d files, readdir w d = Some files -> length files <= bound) ->
  forall (st : State) (rs : list MatchRecord.t),
    (Z.of_nat (length (results st))
     <= Z.max 0 (maxResultsOrDefault cfg - 1 + Z.of_nat bound))%Z ->
    run w cfg re fuel st = Returned rs ->
    (Z.of_nat (length rs)
     <= Z.max 0 (maxResultsOrDefault cfg - 1 + Z.of_nat bound))%Z.
Proof.
  intros Hbound.
  induction fuel as [| fuel IH]; intros st rs Hinv; simpl;
    destruct (step w cfg re st) as [st' | o] eqn:Hstep; try discriminate.
  - intros ->. now apply step_returns_results in Hstep as ->.
  - apply IH.
    pose proof (cap_is_checked_per_directory w cfg re st st' Hstep) as Hcap.
    apply step_fifo in Hstep as (dir & rest & _ & _ & -> & _).
    rewrite length_app.
    pose proof (matchesIn_length bound dir Hbound). lia.
  - intros ->. now apply step_returns_results in Hstep as ->.
Qed.

End Cap.

(** The cap is overshot by less than one directory: when [maxResults] is
    positive and no directory lists more than [bound] entries, the result
    has fewer than [maxResults + bound] records. *)
Theorem cap_overshoot_is_less_than_one_directory :
  forall (fuel bound : nat) (w : World) (cfg : Config)
         (rs : list MatchRecord.t),
    (forall d files, readdir w d = Some files -> length files <= bound) ->
    (0 < maxResultsOrDefault cfg)%Z ->
    findFiles fuel w cfg = Returned rs ->
    (Z.of_nat (length rs) < maxResultsOrDefault cfg + Z.of_nat bound)%Z.
Proof.
  intros fuel bound w cfg rs Hbound Hcap Hrun.
  apply findFiles_returned in Hrun.
  apply (run_cap_overshoot w cfg (filenameRegexOf cfg) bound fuel Hbound)
    in Hrun; simpl; lia.
Qed.

Lemma cap_overshoot_is_less_than_one_directory_witness :
  (Z.of_nat
     (length [MatchRecord.mk "/d/one.txt" 10 100 200 "text/plain";
              MatchRecord.mk "/d/two.txt" 20 300 400 "text/plain"])
   < maxResultsOrDefault (withMaxResults (defaultConfig ["/d"]) (Some 1%Z))
     + Z.of_nat 2)%Z.
Proof.
  apply (cap_overshoot_is_less_than_one_directory 5 2 Fixture.twoFiles
           (withMaxResults (defaultConfig ["/d"]) (Some 1%Z))).
  - intros d files.
    unfold Fixture.twoFiles, Fixture.world, Fixture.assoc.
    cbn [readdir find fst snd].
    destruct (String.eqb "/d" d); [| discriminate].
    intros [= <-]. simpl. lia.
  - unfold maxResultsOrDefault. simpl. lia.
  - reflexivity.
Defined.

(** With [maxResults] zero or negative nothing is searched: the call
    returns the empty list whatever the file system and the clock. *)
Theorem nonpositive_cap_returns_nothing :
  forall (fuel : nat) (w : World) (cfg : Config),
    patternCompiles cfg = true ->
    (maxResultsOrDefault cfg <= 0)%Z ->
    findFiles fuel w cfg = Returned [].
Proof.
  intros fuel w cfg Hp Hcap. rewrite findFiles_is_run by assumption.
  assert (Hstep : step w cfg (filenameRegexOf cfg) (initialState cfg)
                  = inr (Returned [])).
  { unfold step, initialState. simpl.
    destruct (startDirs cfg); [reflexivity |].
    destruct (Z.ltb_spec 0 (maxResultsOrDefault cfg)); [lia | reflexivity]. }
  destruct fuel; simpl; now rewrite Hstep.
Qed.

Lemma nonpositive_cap_returns_nothing_witness :
  findFiles 5 Fixture.twoFiles (withMaxResults (defaultConfig ["/d"]) (Some 0%Z))
  = Returned [].
Proof.
  apply (nonpositive_cap_returns_nothing 5 Fixture.twoFiles
           (withMaxResults (defaultConfig ["/d"]) (Some 0%Z))).
  - reflexivity.
  - unfold maxResultsOrDefault. simpl. lia.
Defined.

(** ** Searches that stay within the time budget *)

Section Budget.

Variable w : World.
Variable cfg : Config.
Variable re : option RegExp.regex.
Hypothesis Hbudget : WithinBudget w cfg.

(** Within the budget a turn of the loop depends on the queue and on the
    results only. *)
Lemma step_within_budget (st : State) :
  step w cfg re st
  = match queue st with
    | [] => inr (Returned (results st))
    | dir :: rest =>
        if (Z.of_nat (length (results st)) <? maxResultsOrDefault cfg)%Z
        then inl (mkState (rest ++ subdirsOf w cfg re dir)
                          (results st ++ matchesIn w cfg re dir)
                          (S (clockReads st)))
        else inr (Returned (results st))
    end.
Proof.
  unfold step, subdirsOf, matchesIn, dirOutput.
  destruct (queue st) as [| dir rest]; [reflexivity |].
  destruct (Z.of_nat (length (results st)) <? maxResultsOrDefault cfg)%Z;
    [| reflexivity].
  replace (now w (clockReads st) - startTime w >? timeoutMsOrDefault cfg)%Z
    with false.
  - destruct (readdir w dir) as [files |].
    + now rewrite forEntries_appends.
    + simpl. now rewrite !app_nil_r.
  - symmetry. rewrite Z.gtb_ltb. apply Z.ltb_ge. apply Hbudget.
Qed.


Lemma run_never_times_out (fuel : nat) :
  forall st : State, run w cfg re fuel st <> Threw SearchTimedOut.
Proof.
  induction fuel as [| fuel IH]; intros st; simpl;
    rewrite step_within_budget;
    destruct (queue st) as [| dir rest]; try discriminate;
    destruct (Z.of_nat (length (results st)) <? maxResultsOrDefault cfg)%Z;
    try discriminate.
  apply IH.
Qed.




End Budget.

(** ** Configurations that search alike *)

Section SameSearch.

Variable w : World.
Variables cfg1 cfg2 : Config.
Variable re : option RegExp.regex.
Hypothesis Hrecursive : recursive cfg1 = recursive cfg2.
Hypothesis Hcap : maxResultsOrDefault cfg1 = maxResultsOrDefault cfg2.
Hypothesis Htimeout : timeoutMsOrDefault cfg1 = timeoutMsOrDefault cfg2.
Hypothesis Hfilters :
  forall (fileName filePath : string) (stats : Stats.t),
    fileMatch w cfg1 re fileName filePath stats
    = fileMatch w cfg2 re fileName filePath stats.




End SameSearch.

(** ** Searches that do not descend *)

Section NonRecursive.

Variable w : World.
Variable cfg : Config.
Variable re : option RegExp.regex.
Hypothesis Hflat : recursive cfg = false.

Lemma forEntries_queue_flat (dir : string) (files : list string) :
  forall (q : list string) (rs : list MatchRecord.t),
    fst (forEntries w cfg re dir files q rs) = q.
Proof.
  induction files as [| name more IH]; intros q rs; simpl; [reflexivity |].
  destruct (stat w (pathJoin w dir name)); [| apply IH].
  rewrite Hflat, andb_false_r. apply IH.
Qed.

Lemma subdirsOf_flat (dir : string) : subdirsOf w cfg re dir = [].
Proof.
  unfold subdirsOf, dirOutput.
  destruct (readdir w dir); [apply forEntries_queue_flat | reflexivity].
Qed.

Lemma run_terminates_flat (fuel : nat) :
  forall st : State,
    length (queue st) <= fuel -> run w cfg re fuel st <> OutOfFuel.
Proof.
  induction fuel as [| fuel IH]; intros st Hlen; simpl;
    destruct (step w cfg re st) as [st' | o] eqn:Hstep.
  - apply step_fifo in Hstep as (dir & rest & Hq & _).
    rewrite Hq in Hlen. simpl in Hlen. lia.
  - unfold step in Hstep.
    destruct (queue st); [now injection Hstep as <- |].
    simpl in Hlen. lia.
  - apply IH.
    apply step_fifo in Hstep as (dir & rest & Hq & Hq' & _).
    rewrite Hq', subdirsOf_flat, app_nil_r.
    rewrite Hq in Hlen. simpl in Hlen. lia.
  - unfold step in Hstep.
    destruct (queue st); [now injection Hstep as <- |].
    destruct (Z.of_nat (length (results st)) <? maxResultsOrDefault cfg)%Z;
      [| now injection Hstep as <-].
    destruct (now w (clockReads st) - startTime w >? timeoutMsOrDefault cfg)%Z;
      [now injection Hstep as <- |].
    destruct (readdir w _); [| discriminate].
    now destruct (forEntries _ _ _ _ _ _ _).
Qed.

(** Within the budget and below the cap every directory of the queue is
    listed. *)
Lemma run_complete_flat (Hbudget : WithinBudget w cfg) (todo : list string) :
  forall st : State,
    queue st = todo ->
    (Z.of_nat (length (results st ++ flat_map (matchesIn w cfg re) todo))
     < maxResultsOrDefault cfg)%Z ->
    run w cfg re (length todo) st
    = Returned (results st ++ flat_map (matchesIn w cfg re) todo).
Proof.
  induction todo as [| dir todo IH]; intros st Hq Hcap; simpl;
    rewrite step_within_budget by assumption; rewrite Hq.
  - now rewrite app_nil_r.
  - simpl in Hcap. rewrite !length_app in Hcap.
    replace (Z.of_nat (length (results st)) <? maxResultsOrDefault cfg)%Z
      with true by (symmetry; apply Z.ltb_lt; lia).
    rewrite IH; simpl.
    + now rewrite <- app_assoc.
    + now rewrite subdirsOf_flat, app_nil_r.
    + rewrite <- app_assoc, !length_app. lia.
Qed.

End NonRecursive.

(** A search with [recursive = false] ends after as many turns of the loop
    as there are start directories, whatever the file system. *)
Theorem flat_search_terminates :
  forall (w : World) (cfg : Config),
    recursive cfg = false ->
    findFiles (length (startDirs cfg)) w cfg <> OutOfFuel.
Proof.
  intros w cfg Hflat. unfold findFiles.
  destruct (compileFilename cfg) as [[r | |] |]; try discriminate;
    now apply run_terminates_flat.
Qed.

Lemma flat_search_terminates_witness :
  findFiles (length (startDirs (withStartDirs
                                  (mkConfig [] None None None None None None
                                            None None false false None None
                                            None None)
                                  ["/A"; "/B"])))
    Fixture.twoRoots
    (withStartDirs
       (mkConfig [] None None None None None None None None false false
                 None None None None)
       ["/A"; "/B"])
  <> OutOfFuel.
Proof.
  apply (flat_search_terminates Fixture.twoRoots
           (withStartDirs
              (mkConfig [] None None None None None None None None false
                        false None None None None)
              ["/A"; "/B"])).
  reflexivity.
Defined.

(** A search with [recursive = false] that stays within the time budget
    and below the cap returns exactly the matches found directly in the
    start directories, in the order of [startDirs] (a directory named twice
    contributes twice). *)
Theorem flat_search_is_complete :
  forall (w : World) (cfg : Config),
    recursive cfg = false ->
    patternCompiles cfg = true ->
    WithinBudget w cfg ->
    (Z.of_nat
       (length (flat_map (matchesIn w cfg (filenameRegexOf cfg))
                  (startDirs cfg)))
     < maxResultsOrDefault cfg)%Z ->
    findFiles (length (startDirs cfg)) w cfg
    = Returned (flat_map (matchesIn w cfg (filenameRegexOf cfg))
                  (startDirs cfg)).
Proof.
  intros w cfg Hflat Hp Hbudget Hcap.
  rewrite findFiles_is_run by assumption.
  now rewrite (run_complete_flat w cfg (filenameRegexOf cfg) Hflat Hbudget
                 (startDirs cfg) (initialState cfg)).
Qed.

Lemma flat_search_is_complete_witness :
  findFiles 2 Fixture.twoRoots
    (mkConfig ["/A"; "/A"] None None None None None None None None false
              false None None None None)
  = Returned [MatchRecord.mk "/A/a.txt" 1 0 0 "application/octet-stream";
              MatchRecord.mk "/A/a.txt" 1 0 0 "application/octet-stream"].
Proof.
  apply (flat_search_is_complete Fixture.twoRoots
           (mkConfig ["/A"; "/A"] None None None None None None None None
                     false false None None None None)).
  - reflexivity.
  - reflexivity.
  - intros k. unfold timeoutMsOrDefault, startTime. simpl. lia.
  - unfold maxResultsOrDefault. simpl. lia.
Defined.

(** ** Timeouts *)

(** While the clock stays within the budget, [findFiles] does not time
    out. *)
Theorem no_timeout_within_budget :
  forall (fuel : nat) (w : World) (cfg : Config),
    WithinBudget w cfg ->
    findFiles fuel w cfg <> Threw SearchTimedOut.
Proof.
  intros fuel w cfg Hbudget. unfold findFiles.
  destruct (compileFilename cfg) as [[r | |] |]; try discriminate;
    now apply run_never_times_out.
Qed.

Lemma no_timeout_within_budget_witness :
  findFiles 5 Fixture.twoRoots (defaultConfig ["/A"; "/B"])
  <> Threw SearchTimedOut.
Proof.
  apply (no_timeout_within_budget 5 Fixture.twoRoots
           (defaultConfig ["/A"; "/B"])).
  intros k. unfold timeoutMsOrDefault, startTime. simpl. lia.
Defined.

(** When there is a directory to search, the cap is positive and the clock
    is already past the budget at the first turn of the loop, [findFiles]
    fails with the timeout before it lists anything: the outcome does not
    depend on the file system. *)
Theorem timeout_at_first_check :
  forall (fuel : nat) (w : World) (cfg : Config),
    patternCompiles cfg = true ->
    startDirs cfg <> [] ->
    (1 <= maxResultsOrDefault cfg)%Z ->
    (now w 1 - now w 0 > timeoutMsOrDefault cfg)%Z ->
    findFiles fuel w cfg = Threw SearchTimedOut.
Proof.
  intros fuel w cfg Hp Hdirs Hcap Hlate.
  rewrite findFiles_is_run by assumption.
  assert (Hstep : step w cfg (filenameRegexOf cfg) (initialState cfg)
                  = inr (Threw SearchTimedOut)).
  { unfold step, initialState, startTime. simpl.
    destruct (startDirs cfg) as [| dir rest]; [contradiction |].
    replace (0 <? maxResultsOrDefault cfg)%Z with true
      by (symmetry; apply Z.ltb_lt; lia).
    replace (now w 1 - now w 0 >? timeoutMsOrDefault cfg)%Z with true;
      [reflexivity |].
    symmetry. rewrite Z.gtb_ltb. apply Z.ltb_lt. lia. }
  destruct fuel; simpl; now rewrite Hstep.
Qed.

Lemma timeout_at_first_check_witness :
  findFiles 5
    (mkWorld (fun _ => Some []) (fun _ => None) (fun _ => None)
             (fun _ => None) Fixture.join (fun k => (30001 * Z.of_nat k)%Z))
    (defaultConfig ["/d"])
  = Threw SearchTimedOut.
Proof.
  apply (timeout_at_first_check 5
           (mkWorld (fun _ => Some []) (fun _ => None) (fun _ => None)
                    (fun _ => None) Fixture.join
                    (fun k => (30001 * Z.of_nat k)%Z))
           (defaultConfig ["/d"])).
  - reflexivity.
  - discriminate.
  - unfold maxResultsOrDefault. simpl. lia.
  - unfold timeoutMsOrDefault. simpl. lia.
Defined.

(** ** Directories that cannot be listed *)



(** ** Options given as the empty string *)

(** An empty [filename], [extension] or [contentSearch] is no filter at
    all: the search gives what it gives with the option left out. *)
Theorem empty_string_options_are_inactive :
  forall (fuel : nat) (w : World) (cfg : Config) (cs : bool),
    findFiles fuel w (withFilename cfg (Some EmptyString) cs)
    = findFiles fuel w (withFilename cfg None cs)
    /\ findFiles fuel w (withExtension cfg (Some EmptyString))
       = findFiles fuel w (withExtension cfg None)
    /\ findFiles fuel w (withContentSearch cfg (Some EmptyString))
       = findFiles fuel w (withContentSearch cfg None).
Proof.
  intros fuel w cfg cs.
  split; [reflexivity | split; reflexivity].
Qed.

(** ** More on the wildcard conversion *)

(** The three replacements of [wildcardToRegex] act as one pass that
    translates each character on its own ([.] to an escaped dot, [*] to
    [.*], [?] to [.], anything else to itself): no replacement text
    contains a character that a later replacement looks for. *)
Theorem conversion_acts_character_by_character :
  forall pattern : string, regexPattern pattern = translate pattern.
Proof. exact regexPattern_translate. Qed.

(** A pattern made of [*], [?] and characters that are not
    regular-expression metacharacters always compiles, and on a name
    without line terminators the compiled pattern accepts exactly the names
    of the wildcard language: the dot is literal, [*] is any run, [?] is one
    character, and the whole name must match. *)
Theorem wildcard_language_is_decided_by_compiled_pattern :
  forall pattern name : string,
    isWildcardPattern pattern = true ->
    noLineTerminator name = true ->
    wildcardToRegex pattern = RegExp.Compiled (regexOf pattern)
    /\ RegExp.test (regexOf pattern) name = specWildcardMatch pattern name.
Proof.
  intros pattern name Hp Hn. split; [now apply wildcardToRegex_compiles |].
  unfold regexOf. rewrite test_anchored. now apply terms_match.
Qed.

Lemma wildcard_language_is_decided_by_compiled_pattern_witness :
  wildcardToRegex "rep*.p?f" = RegExp.Compiled (regexOf "rep*.p?f")
  /\ RegExp.test (regexOf "rep*.p?f") "report.v2.pdf"
     = specWildcardMatch "rep*.p?f" "report.v2.pdf".
Proof.
  apply (wildcard_language_is_decided_by_compiled_pattern
           "rep*.p?f" "report.v2.pdf"); reflexivity.
Defined.

Lemma name_filter_agrees_when_pattern_is_folded_witness :
  fileMatch (Fixture.oneFile "Report.PDF")
    (withFilename (defaultConfig ["/d"]) (Some "rep*.pdf") false)
    (filenameRegexOf
       (withFilename (defaultConfig ["/d"]) (Some "rep*.pdf") false))
    "Report.PDF" "/d/Report.PDF" (Fixture.plainFile 10 100 200)
  = if specNameAccepts
         (caseSensitive
            (withFilename (defaultConfig ["/d"]) (Some "rep*.pdf") false))
         "rep*.pdf" "Report.PDF"
    then fileMatch (Fixture.oneFile "Report.PDF")
           (withFilename (defaultConfig ["/d"]) (Some "rep*.pdf") false)
           None "Report.PDF" "/d/Report.PDF" (Fixture.plainFile 10 100 200)
    else None.
Proof.
  apply (name_filter_agrees_when_pattern_is_folded
           (Fixture.oneFile "Report.PDF")
           (withFilename (defaultConfig ["/d"]) (Some "rep*.pdf") false)
           "rep*.pdf" "Report.PDF" "/d/Report.PDF"
           (Fixture.plainFile 10 100 200)); reflexivity.
Defined.

Lemma translate_append (a b : string) :
  translate (String.append a b)
  = String.append (translate a) (translate b).
Proof.
  induction a as [| c a IH]; simpl; [reflexivity |].
  now rewrite IH, append_assoc.
Qed.

Lemma truthy_append_cons (a b : string) (c : ascii) :
  JSString.truthy (String.append a (String c b)) = true.
Proof. now destruct a. Qed.

(** A closing parenthesis that no opening one precedes makes the pattern
    uncompilable: whatever follows it, [findFiles] throws the SyntaxError
    and searches nothing. *)
Theorem unmatched_closing_parenthesis_throws :
  forall (fuel : nat) (w : World) (cfg : Config) (cs : bool)
         (before after : string),
    isWildcardPattern before = true ->
    findFiles fuel w
      (withFilename cfg (Some (String.append before (String ")" after))) cs)
    = Threw RegExpSyntaxError.
Proof.
  intros fuel w cfg cs before after Hp.
  unfold findFiles, compileFilename. cbn [filename withFilename].
  rewrite truthy_append_cons.
  unfold wildcardToRegex, RegExp.RegExp.
  rewrite regexPattern_translate, translate_append.
  change (RegExp.parse
            (String "^"
               (String.append
                  (String.append (translate before)
                     (translate (String ")" after))) "$"))
            RegExp.emptyFrame [])
    with (RegExp.parse
            (String.append
               (String.append (translate before)
                  (translate (String ")" after))) "$")
            (RegExp.pushItem (RegExp.Bol, RegExp.Closed) RegExp.emptyFrame)
            []).
  rewrite append_assoc, parse_translate by assumption.
  reflexivity.
Qed.

Lemma unmatched_closing_parenthesis_throws_witness :
  findFiles 5 Fixture.twoFiles
    (withFilename (defaultConfig ["/d"])
       (Some (String.append "report*" (String ")" ".txt"))) false)
  = Threw RegExpSyntaxError.
Proof.
  apply (unmatched_closing_parenthesis_throws 5 Fixture.twoFiles
           (defaultConfig ["/d"]) false "report*" ".txt").
  reflexivity.
Defined.

(** *** Patterns without wildcards *)

Lemma literal_terms_match (pattern : string) :
  forall (n : nat) (s : string),
    isLiteralPattern pattern = true ->
    RegExp.matchesAt
      (fold_right RegExp.Seq (RegExp.Seq RegExp.Eol RegExp.Eps)
         (map fst (termsOf pattern))) n s
    = String.eqb s pattern.
Proof.
  induction pattern as [| c pattern IH]; intros n s Hp.
  - now destruct s.
  - simpl in Hp.
    apply andb_true_iff in Hp as [Hp Hrest].
    apply andb_true_iff in Hp as [Hp Hq].
    apply andb_true_iff in Hp as [_ Hstar].
    apply negb_true_iff in Hstar, Hq.
    simpl termsOf. simpl map. simpl fold_right.
    rewrite matchesAt_Seq. unfold termOf. rewrite Hstar, Hq. simpl fst.
    destruct s as [| d s]; [reflexivity |].
    simpl. destruct (d =? c)%char; simpl; [| reflexivity].
    rewrite orb_false_r. now apply IH.
Qed.

Lemma isLiteralPattern_wildcard (pattern : string) :
  isLiteralPattern pattern = true -> isWildcardPattern pattern = true.
Proof.
  induction pattern as [| c pattern IH]; simpl; [reflexivity |].
  intros H.
  apply andb_true_iff in H as [H Hrest].
  apply andb_true_iff in H as [H _].
  apply andb_true_iff in H as [Hc _].
  now rewrite Hc, IH.
Qed.

Lemma startsWith_refl (s : string) : JSString.startsWith s s = true.
Proof.
  induction s as [| c s IH]; simpl; [reflexivity |].
  now rewrite Ascii.eqb_refl.
Qed.

Lemma includes_refl (s : string) : JSString.includes s s = true.
Proof. destruct s; simpl; [reflexivity |]. now rewrite Ascii.eqb_refl, startsWith_refl. Qed.

(** A pattern without wildcards (and without regular-expression
    metacharacters) is a substring search: where folding leaves the pattern
    as it is, a file passes the name filter exactly when its (possibly
    folded) name contains the pattern; the anchored match adds nothing. *)
Theorem literal_pattern_is_substring_search :
  forall (w : World) (cfg : Config) (pattern fileName filePath : string)
         (stats : Stats.t),
    filename cfg = Some pattern ->
    JSString.truthy pattern = true ->
    isLiteralPattern pattern = true ->
    testPattern cfg pattern = pattern ->
    fileMatch w cfg (filenameRegexOf cfg) fileName filePath stats
    = if JSString.includes (testName cfg fileName) pattern
      then fileMatch w cfg None fileName filePath stats
      else None.
Proof.
  intros w cfg pattern fileName filePath stats Hf Ht Hlit Hfold.
  assert (Hre : filenameRegexOf cfg = Some (regexOf pattern)).
  { unfold filenameRegexOf, compileFilename.
    rewrite Hf, Ht, wildcardToRegex_compiles; [reflexivity |].
    now apply isLiteralPattern_wildcard. }
  rewrite Hre, !fileMatch_rejected. unfold rejected, nameRejects.
  rewrite Hf, Hfold. unfold regexOf.
  rewrite test_anchored, literal_terms_match by assumption.
  destruct (String.eqb_spec (testName cfg fileName) pattern) as [-> | _].
  - rewrite includes_refl. reflexivity.
  - cbn [negb andb].
    destruct (JSString.includes (testName cfg fileName) pattern); reflexivity.
Qed.

Lemma literal_pattern_is_substring_search_witness :
  fileMatch (Fixture.oneFile "mytest.log")
    (withFilename (defaultConfig ["/d"]) (Some "test") false)
    (filenameRegexOf (withFilename (defaultConfig ["/d"]) (Some "test") false))
    "mytest.log" "/d/mytest.log" (Fixture.plainFile 10 100 200)
  = if JSString.includes
         (testName (withFilename (defaultConfig ["/d"]) (Some "test") false)
            "mytest.log") "test"
    then fileMatch (Fixture.oneFile "mytest.log")
           (withFilename (defaultConfig ["/d"]) (Some "test") false)
           None "mytest.log" "/d/mytest.log" (Fixture.plainFile 10 100 200)
    else None.
Proof.
  apply (literal_pattern_is_substring_search (Fixture.oneFile "mytest.log")
           (withFilename (defaultConfig ["/d"]) (Some "test") false)
           "test" "mytest.log" "/d/mytest.log"
           (Fixture.plainFile 10 100 200)); reflexivity.
Defined.

(** ** [formatFileSize] *)





Lemma hundredths_whole (b : Z) :
  (0 <= b)%Z -> hundredths (inject_Z b) = (100 * b)%Z.
Proof.
  intros Hb. unfold hundredths, Qfloor, Qabs, Qplus, Qmult, inject_Z.
  cbn [Qnum Qden]. rewrite Z.abs_eq by assumption.
  symmetry. apply Z.div_unique with (r := 1%Z); lia.
Qed.

(** A size below 1024 bytes is printed as it is, with [.00] and the unit
    B. *)
Theorem small_sizes_are_printed_in_bytes :
  forall bytes : Z,
    (0 <= bytes < 1024)%Z ->
    formatFileSize bytes = String.append (decimal bytes) ".00 B".
Proof.
  intros bytes Hb. unfold formatFileSize.
  cbn [scaleLoop length units Nat.sub Nat.ltb Nat.leb andb].
  replace (Qle_bool 1024 (inject_Z bytes)) with false.
  - cbn [andb nth]. unfold toFixed2.
    rewrite hundredths_whole by lia.
    replace (Qle_bool 0 (inject_Z bytes)) with true.
    + replace (100 * bytes / 100)%Z with bytes
        by (symmetry; rewrite Z.mul_comm; apply Z.div_mul; lia).
      replace ((100 * bytes) mod 100)%Z with 0%Z
        by (symmetry; rewrite Z.mul_comm; apply Z.mod_mul; lia).
      replace ((100 * bytes) mod 10)%Z with 0%Z.
      * cbn [String.append]. generalize (decimal bytes) as text.
        induction text as [| c text IH]; [reflexivity |].
        cbn [String.append]. now rewrite IH.
      * apply Z.mod_unique with (q := (10 * bytes)%Z); lia.
    + symmetry. unfold Qle_bool, inject_Z. cbn [Qnum Qden].
      apply Z.leb_le. lia.
  - symmetry. unfold Qle_bool, inject_Z. cbn [Qnum Qden].
    apply Z.leb_gt. lia.
Qed.

Lemma small_sizes_are_printed_in_bytes_witness :
  formatFileSize 1023 = String.append (decimal 1023) ".00 B".
Proof.
  apply (small_sizes_are_printed_in_bytes 1023). lia.
Defined.



(** The bound of 1024.00 is reached: one byte below a mebibyte is printed
    as 1024.00 KB. *)
Example just_below_a_mebibyte :
  formatFileSize 1048575 = "1024.00 KB"
  /\ formatFileSize 1048576 = "1.00 MB".
Proof. split; reflexivity. Qed.

(** ** The handler *)

(** When the call names no directory and the command line gives none, the
    handler asks for one and searches nothing: the answer does not depend
    on the file system, on the clock or on the other arguments. *)
Theorem no_directory_asks_for_one :
  forall (fuel : nat) (rt : Runtime) (w : World) (args : ToolArgs.t),
    ToolArgs.directories args = None \/ ToolArgs.directories args = Some [] ->
    argv rt = [] ->
    handler fuel rt w args = Some askForDirectory.
Proof.
  intros fuel rt w args Hdirs Hargv. unfold handler, startDirsOf.
  destruct Hdirs as [-> | ->]; now rewrite Hargv.
Qed.

Lemma no_directory_asks_for_one_witness :
  handler 5 ToolFixture.runtime Fixture.twoFiles (ToolFixture.args (Some []))
  = Some askForDirectory.
Proof.
  apply (no_directory_asks_for_one 5 ToolFixture.runtime Fixture.twoFiles
           (ToolFixture.args (Some []))).
  - right. reflexivity.
  - reflexivity.
Defined.

Lemma count_is_not_noFilesFound (n : Z) (rest : string) :
  String.append (decimal n) rest <> noFilesFound.
Proof.
  unfold decimal, NilZero.string_of_uint.
  destruct (N.to_uint (Z.to_N n)); simpl; discriminate.
Qed.

(** The answer "No files found matching the search criteria." is given
    exactly when there was a directory to search and [findFiles] returned
    the empty list: a timeout, a pattern that does not compile, a missing
    directory argument and a non-empty result all give another text. *)
Theorem no_files_answer_means_empty_result :
  forall (fuel : nat) (rt : Runtime) (w : World) (args : ToolArgs.t),
    handler fuel rt w args = Some noFilesFound
    <-> startDirsOf rt args <> []
        /\ findFiles fuel w (configOf rt args) = Returned [].
Proof.
  intros fuel rt w args. unfold handler. split.
  - destruct (startDirsOf rt args) as [| d ds]; [discriminate |].
    destruct (findFiles fuel w (configOf rt args)) as [[| m ms] | e | |];
      try discriminate.
    + now split.
    + intros [= H]. now apply count_is_not_noFilesFound in H.
  - intros [Hdirs ->].
    destruct (startDirsOf rt args); [contradiction | reflexivity].
Qed.

(** A date argument that [new Date] cannot read filters nothing: the
    handler answers as it does without the date arguments, instead of
    reporting the unreadable date. *)
Theorem unreadable_dates_are_ignored :
  forall (fuel : nat) (rt : Runtime) (w : World) (args : ToolArgs.t)
         (ca cb ma mb : option string),
    unreadableDate rt ca ->
    unreadableDate rt cb ->
    unreadableDate rt ma ->
    unreadableDate rt mb ->
    handler fuel rt w (withDateArgs args ca cb ma mb)
    = handler fuel rt w (withDateArgs args None None None None).
Proof.
  intros fuel rt w args ca cb ma mb Hca Hcb Hma Hmb.
  unfold unreadableDate in *. unfold handler, configOf.
  cbn [withDateArgs ToolArgs.createdAfter ToolArgs.createdBefore
       ToolArgs.modifiedAfter ToolArgs.modifiedBefore].
  destruct (dateOf rt ca) as [? |]; [subst |];
    (destruct (dateOf rt cb) as [? |]; [subst |]);
    (destruct (dateOf rt ma) as [? |]; [subst |]);
    (destruct (dateOf rt mb) as [? |]; [subst |]);
    reflexivity.
Qed.

Lemma unreadable_dates_are_ignored_witness :
  handler 5 ToolFixture.runtime Fixture.twoFiles
    (withDateArgs (ToolFixture.args (Some ["/d"]))
       (Some "not a date") None None (Some "not a date"))
  = handler 5 ToolFixture.runtime Fixture.twoFiles
      (withDateArgs (ToolFixture.args (Some ["/d"])) None None None None).
Proof.
  apply (unreadable_dates_are_ignored 5 ToolFixture.runtime Fixture.twoFiles
           (ToolFixture.args (Some ["/d"]))
           (Some "not a date") None None (Some "not a date"));
    reflexivity || exact I.
Defined.

Lemma no_files_answer_means_empty_result_witness :
  handler 5 ToolFixture.runtime
    (Fixture.world [("/d", [])] [("/d", Fixture.directory)] [] [])
    (ToolFixture.args (Some ["/d"]))
  = Some noFilesFound.
Proof.
  apply (proj2 (no_files_answer_means_empty_result 5 ToolFixture.runtime
                  (Fixture.world [("/d", [])] [("/d", Fixture.directory)]
                     [] [])
                  (ToolFixture.args (Some ["/d"])))).
  split; [discriminate | reflexivity].
Defined.
